(** * Blogicum: the request handlers of [blog/views.py] and the routing
    table of [blog/urls.py], embedded as functions over an explicit
    database state.

    The handlers are written against Django.  What the framework does for
    them (the login gate, [get_object_or_404], form binding, the paginator
    of [ListView]) is modelled here next to the handlers, each piece under
    the name it has in the source. *)

From stdpp Require Import gmap strings list fin_maps sorting.
From Stdlib Require Import ZArith.

Local Open Scope string_scope.
Local Open Scope Z_scope.

(** ** Data model *)

(** Primary keys are the values of an auto-incremented column: they start
    at one, hence [positive].  Integers captured from a URL by the
    [<int:...>] converter are arbitrary naturals, hence [N]. *)
Abbreviation pk := positive.

(** Modelled from the spec: the user model is the one Django's
    [get_user_model()] returns, declared outside [views.py]; of a user the
    views read [username] and [is_staff], and the profile form edits the
    name and address fields. *)
Record User := mkUser {
  username : string;
  first_name : string;
  last_name : string;
  email : string;
  is_staff : bool;
}.

(** Modelled from the spec: [models.py] is missing; a category has a
    slug, a title and a published flag. *)
Record Category := mkCategory {
  slug : string;
  category_title : string;
  category_is_published : bool;
}.

(** Modelled from the spec: [models.py] is missing; a post has a title, a
    text, an image, a publish date, a published flag, an author reference
    and a category reference, which may be empty. *)
Record Post := mkPost {
  title : string;
  text : string;
  image : option string;
  pub_date : Z;
  is_published : bool;
  author : pk;
  category : option pk;
}.

(** Modelled from the spec: [models.py] is missing; a comment has a text,
    an author reference, a post reference and a timestamp. *)
Record Comment := mkComment {
  comment_text : string;
  comment_author : pk;
  comment_post : pk;
  created_at : Z;
}.

(** The four tables, keyed by primary key. *)
Record DB := mkDB {
  users : gmap positive User;
  categories : gmap positive Category;
  posts : gmap positive Post;
  comments : gmap positive Comment;
}.

Definition set_users (f : gmap positive User → gmap positive User) (db : DB) : DB :=
  mkDB (f (users db)) (categories db) (posts db) (comments db).
Definition set_posts (f : gmap positive Post → gmap positive Post) (db : DB) : DB :=
  mkDB (users db) (categories db) (f (posts db)) (comments db).
Definition set_comments (f : gmap positive Comment → gmap positive Comment) (db : DB) : DB :=
  mkDB (users db) (categories db) (posts db) (f (comments db)).

(** ** Requests *)

Inductive Method := GET | HEAD | POST | PUT | PATCH | DELETE | OPTIONS.

Global Instance Method_eq_dec : EqDecision Method.
Proof. solve_decision. Defined.

(** [request.user]: the anonymous user, or a row of the user table. *)
Inductive RequestUser :=
  | AnonymousUser
  | AuthUser (user_pk : pk) (u : User).

(** A submitted set of fields ([request.POST], [request.FILES]). *)
Abbreviation QueryDict := (list (string * string)).

(** The [page] query parameter once read: an integer, the word [last], or
    anything else.  A request without the parameter, or with an empty
    one, carries none ([GET.get("page") or 1]). *)
Inductive PageArg :=
  | page_int (n : Z)
  | page_last
  | page_other.

Record HttpRequest := mkRequest {
  method : Method;
  user : RequestUser;
  path : string;
  body_fields : QueryDict;
  body_files : QueryDict;
  GET_page : option PageArg;
  (** what [timezone.now()] returns while the request is handled *)
  clock : Z;
  (** what it returns when a handler calls it a second time *)
  clock_again : Z;
}.

(** Django parses a body into [request.POST] and [request.FILES] only for
    the POST method; for any other method both are empty. *)
Definition request_POST (request : HttpRequest) : QueryDict :=
  if decide (method request = POST) then body_fields request else [].
Definition request_FILES (request : HttpRequest) : QueryDict :=
  if decide (method request = POST) then body_files request else [].

(** [q or None]: an empty dictionary is falsy. *)
Definition or_None (q : QueryDict) : option QueryDict :=
  match q with
  | [] => None
  | _ => Some q
  end.

(** [if n:] on an integer. *)
Definition int_truthy (n : N) : bool := negb (n =? 0)%N.

Definition is_authenticated (u : RequestUser) : bool :=
  match u with
  | AnonymousUser => false
  | AuthUser _ _ => true
  end.

(** [user != instance.author]: model instances are equal when their
    primary keys are; the anonymous user equals no row. *)
Definition user_ne (u : RequestUser) (a : pk) : bool :=
  match u with
  | AnonymousUser => true
  | AuthUser p _ => negb (bool_decide (p = a))
  end.

(** [user.is_staff]; the anonymous user is not staff. *)
Definition user_is_staff (u : RequestUser) : bool :=
  match u with
  | AnonymousUser => false
  | AuthUser _ r => is_staff r
  end.

(** ** Forms *)

(** A model form as the views build it: the submitted data, the submitted
    files and the instance being edited (a row with its key). *)
Record Form (I : Type) := mkForm {
  form_data : option QueryDict;
  form_files : option QueryDict;
  form_instance : option (pk * I);
}.
Arguments mkForm {I} _ _ _.
Arguments form_data {I} _.
Arguments form_files {I} _.
Arguments form_instance {I} _.

(** What a form class of [forms.py] declares: the validation messages for
    a submission (against the database, for uniqueness and choice fields)
    and the field values of the instance that [save(commit=False)]
    returns. *)
Record ModelForm (I : Type) := mkModelForm {
  clean_errors : DB → QueryDict → QueryDict → option (pk * I) → list string;
  construct_instance : QueryDict → QueryDict → option (pk * I) → I;
}.
Arguments mkModelForm {I} _ _.
Arguments clean_errors {I} _ _ _ _ _.
Arguments construct_instance {I} _ _ _ _.

(** [forms.py] and [models.py] are not among the sources at hand: the
    three form classes the views import and the rule the [Comment.post]
    foreign key declares for the deletion of its post are parameters of
    the development. *)
Record Declarations := mkDeclarations {
  PostForm : ModelForm Post;
  CommentForm : ModelForm Comment;
  ProfileEditForm : ModelForm User;
  Comment_post_on_delete : pk → gmap positive Comment → gmap positive Comment;
}.

(** A form is bound when it was given data or files. *)
Definition is_bound {I} (f : Form I) : bool :=
  bool_decide (is_Some (form_data f)) || bool_decide (is_Some (form_files f)).

(** [form.errors]: empty for an unbound form, the messages of the
    validation otherwise. *)
Definition form_errors {I} (cls : ModelForm I) (db : DB) (f : Form I) : list string :=
  if is_bound f
  then clean_errors cls db (default [] (form_data f)) (default [] (form_files f)) (form_instance f)
  else [].

(** [form.is_valid()] is [is_bound and not errors]. *)
Definition is_valid {I} (cls : ModelForm I) (db : DB) (f : Form I) : bool :=
  is_bound f && bool_decide (form_errors cls db f = []).

(** [form.save(commit=False)]. *)
Definition form_save_no_commit {I} (cls : ModelForm I) (f : Form I) : I :=
  construct_instance cls (default [] (form_data f)) (default [] (form_files f)) (form_instance f).

(** ** Responses *)

(** Targets of a redirect: a named route of [urls.py] with its arguments,
    or the login page with the path to come back to. *)
Inductive Location :=
  | blog_index
  | blog_profile (name : string)
  | blog_post_detail (post_id : N)
  | login_page (login_url : string) (next : string).

(** A row of a listing: the post and its annotated [comment_count]. *)
Record PostRow := mkPostRow {
  row_pk : pk;
  row_post : Post;
  comment_count : nat;
}.

(** What each listing view adds to the context. *)
Inductive ListExtra :=
  | extra_total_posts (n : nat)
  | extra_category (c : pk * Category)
  | extra_profile (p : pk * User).

(** The context a template is rendered with.  Where a view passes both a
    form and the object the form edits, the two are one object: the
    context entry is the instance the form holds. *)
Inductive Context :=
  | ctx_list (object_list : list PostRow) (extra : ListExtra)
  | ctx_detail (post : pk * Post) (form : Form Comment) (post_comments : list (pk * Comment))
  | ctx_post_form (form : Form Post)
  | ctx_comment_form (form : Form Comment) (post : pk * Post)
  | ctx_comment (comment : pk * Comment)
  | ctx_profile_form (form : Form User).

(** [redirect] is the response that sends the client to a location, the
    one [django.shortcuts.redirect] returns when it can build the path
    (see [shortcuts.redirect] below). *)
Inductive HttpResponse :=
  | render (template : string) (context : Context)
  | redirect (to : Location)
  | HttpResponseNotFound
  | HttpResponseNotAllowed
  | HttpResponseOptions
  | HttpResponseServerError.

(** ** The handler monad: database state and exceptions *)

Inductive Exception :=
  | Http404
  | MultipleObjectsReturned
  | OverflowError
  | NoReverseMatch
  | ValueError.

Inductive Outcome (A : Type) :=
  | Done (a : A)
  | Raise (e : Exception).
Arguments Done {A} _.
Arguments Raise {A} _.

Definition View (A : Type) : Type := DB → Outcome A * DB.

Global Instance View_ret : MRet View := λ A a db, (Done a, db).
Global Instance View_bind : MBind View := λ A B k m db,
  match m db with
  | (Done a, db') => k a db'
  | (Raise e, db') => (Raise e, db')
  end.

Definition raise {A} (e : Exception) : View A := λ db, (Raise e, db).
Definition gets {A} (f : DB → A) : View A := λ db, (Done (f db), db).
Definition modify (f : DB → DB) : View unit := λ db, (Done tt, f db).

(** The framework turns an escaping [Http404] into a 404 response and any
    other exception into a server error. *)
Definition respond (v : View HttpResponse) (db : DB) : HttpResponse * DB :=
  match v db with
  | (Done r, db') => (r, db')
  | (Raise Http404, db') => (HttpResponseNotFound, db')
  | (Raise _, db') => (HttpResponseServerError, db')
  end.

(** ** Queries *)

(** [Model.objects.filter(...)]: the rows of a table that satisfy a
    condition.  Their order is left to the database; the model takes the
    order of the map. *)
Definition objects_filter {A} (cond : pk → A → bool) (table : gmap positive A) : list (pk * A) :=
  filter (λ row, cond row.1 row.2 = true) (map_to_list table).

(** The row of a table under an integer taken from a URL.  No row has
    key zero. *)
Definition lookup_pk {A} (table : gmap positive A) (n : N) : option (pk * A) :=
  match n with
  | N0 => None
  | Npos k => (λ row, (k, row)) <$> table !! k
  end.

(** The key column holds 64-bit signed integers: the keys of the stored
    rows lie below [2^63], and the database refuses a larger integer as
    the parameter of a query. *)
Definition key_limit : N := (2 ^ 63)%N.

(** [get_object_or_404(Model, pk=n)]: the row under [n]; a 404 when there
    is none; for an [n] that does not fit the key column, and which
    therefore no row bears, the query itself fails with [OverflowError]. *)
Definition get_object_or_404_pk {A} (table : DB → gmap positive A) (n : N) : View (pk * A) :=
  λ db,
    match lookup_pk (table db) n with
    | Some row => (Done row, db)
    | None =>
        if bool_decide (key_limit ≤ n)%N then (Raise OverflowError, db)
        else (Raise Http404, db)
    end.

(** [get_object_or_404(Model, field=value)] on a column that is not the
    key: [get] raises when several rows match. *)
Definition get_object_or_404_by {A} (table : DB → gmap positive A) (cond : pk → A → bool) : View (pk * A) :=
  λ db,
    match objects_filter cond (table db) with
    | [] => (Raise Http404, db)
    | [row] => (Done row, db)
    | _ => (Raise MultipleObjectsReturned, db)
    end.

(** [category__is_published=True] on a post: the join with the category
    table keeps the post when its category row exists and is published. *)
Definition category__is_published (db : DB) (p : Post) : bool :=
  match category p with
  | Some c =>
      match categories db !! c with
      | Some cat => category_is_published cat
      | None => false
      end
  | None => false
  end.

(** [pub_date__lte=now]. *)
Definition pub_date__lte (now : Z) (p : Post) : bool := bool_decide (pub_date p ≤ now).

(** [order_by("-pub_date")].  The order of posts with equal dates is left
    to the database; the merge sort fixes one. *)
Definition pub_date_desc (a b : pk * Post) : Prop := pub_date b.2 ≤ pub_date a.2.

Global Instance pub_date_desc_dec a b : Decision (pub_date_desc a b).
Proof. unfold pub_date_desc. apply _. Defined.

Global Instance pub_date_desc_total : Total pub_date_desc.
Proof. intros a b. unfold pub_date_desc. lia. Qed.

Global Instance pub_date_desc_trans : Transitive pub_date_desc.
Proof. intros a b c. unfold pub_date_desc. lia. Qed.

Definition order_by_pub_date_desc (rows : list (pk * Post)) : list (pk * Post) :=
  merge_sort pub_date_desc rows.

(** [annotate(comment_count=Count("comment"))]. *)
Definition Count_comment (db : DB) (k : pk) : nat :=
  length (objects_filter (λ _ c, bool_decide (comment_post c = k)) (comments db)).

Definition annotate (db : DB) (rows : list (pk * Post)) : list PostRow :=
  (λ row, mkPostRow row.1 row.2 (Count_comment db row.1)) <$> rows.

(** ** The paginator of [ListView] *)

Definition PAGE_PAGINATOR : nat := 10.

(** [Paginator.num_pages] with no orphans and an empty first page
    allowed: an empty list still has one page. *)
Definition num_pages (count per_page : nat) : nat :=
  (Nat.max 1 count + per_page - 1) `div` per_page.

(** [ListView.paginate_queryset]: the page number defaults to one, [last]
    means the last page, anything that is not an integer, is below one or
    is past the last page is a 404; the page is the slice
    [object_list[bottom:top]]. *)
Definition paginate_queryset {A} (queryset : list A) (page_size : nat)
    (page : option PageArg) : View (list A) :=
  let count := length queryset in
  let check (number : Z) : View (list A) :=
    if bool_decide (number < 1) then raise Http404
    else if bool_decide (Z.of_nat (num_pages count page_size) < number) then raise Http404
    else
      let bottom := ((Z.to_nat number - 1) * page_size)%nat in
      let top := if bool_decide (count ≤ bottom + page_size)%nat then count
                 else (bottom + page_size)%nat in
      mret (take (top - bottom) (drop bottom queryset)) in
  match page with
  | None => check 1
  | Some (page_int n) => check n
  | Some page_last => check (Z.of_nat (num_pages count page_size))
  | Some page_other => raise Http404
  end.

(** [View.dispatch] of a [ListView]: only [get] is defined ([head] falls
    back on it), [options] is answered by the base class, every other
    method is refused. *)
Definition ListView_dispatch (get : View HttpResponse) (request : HttpRequest) : View HttpResponse :=
  match method request with
  | GET | HEAD => get
  | OPTIONS => mret HttpResponseOptions
  | _ => mret HttpResponseNotAllowed
  end.

(** ** Decorators and shortcuts *)

(** The [<str:...>] converter matches [[^/]+]: a string that is not empty
    and holds no slash. *)
Fixpoint has_slash (s : string) : bool :=
  match s with
  | EmptyString => false
  | String a s' => if Ascii.eqb a (Ascii.ascii_of_nat 47) then true else has_slash s'
  end.

Definition str_converter_matches (s : string) : bool :=
  negb (String.eqb s "") && negb (has_slash s).

(** [reverse] finds the path of a named route when the arguments fit its
    converters: any natural fits [<int:...>], the login page is given by
    its path. *)
Definition reversible (to : Location) : bool :=
  match to with
  | blog_profile name => str_converter_matches name
  | blog_index | blog_post_detail _ | login_page _ _ => true
  end.

Module shortcuts.
(** [django.shortcuts.redirect] (and [redirect(reverse(...))]): the
    redirect response, or [NoReverseMatch] when the route cannot carry
    the arguments. *)
Definition redirect (to : Location) : View HttpResponse :=
  if reversible to then mret (redirect to) else raise NoReverseMatch.
End shortcuts.

(** [@login_required(login_url=...)]. *)
Definition login_required (login_url : string)
    (view : HttpRequest → View HttpResponse) (request : HttpRequest) : View HttpResponse :=
  if is_authenticated (user request) then view request
  else mret (redirect (login_page login_url (path request))).

(** Using [request.user] as a row of the user table (as the author of a
    saved record, as the instance of a form) fails for the anonymous
    user. *)
Definition as_user_row (u : RequestUser) : View (pk * User) :=
  match u with
  | AnonymousUser => raise ValueError
  | AuthUser k r => mret (k, r)
  end.

(** [instance.save()]: a row that has a key is written back under it, a
    new row receives a key that is not in use. *)
Definition save_row {A} (table : gmap positive A) (key : option pk) (row : A) : gmap positive A :=
  match key with
  | Some k => <[k := row]> table
  | None => <[fresh (dom table) := row]> table
  end.

(** ** The views of [blog/views.py] *)

Definition with_author (a : pk) (p : Post) : Post :=
  mkPost (title p) (text p) (image p) (pub_date p) (is_published p) a (category p).

Definition with_author_post (a : pk) (on : pk) (c : Comment) : Comment :=
  mkComment (comment_text c) a on (created_at c).

(** The condition the public queries put on a post: published, not dated
    in the future, in a published category. *)
Definition published_now (db : DB) (now : Z) (p : Post) : bool :=
  is_published p && pub_date__lte now p && category__is_published db p.

(** [ListView.get]: the queryset, its page, the additions of
    [get_context_data], the template. *)
Definition ListView_get (template_name : string) (get_queryset : View (list PostRow))
    (get_extra : View ListExtra) (request : HttpRequest) : View HttpResponse :=
  object_list ← get_queryset;
  page ← paginate_queryset object_list PAGE_PAGINATOR (GET_page request);
  extra ← get_extra;
  mret (render template_name (ctx_list page extra)).

Module HomePage.
Definition template_name := "blog/index.html".

Definition get_queryset (request : HttpRequest) : View (list PostRow) :=
  db ← gets id;
  mret (annotate db (order_by_pub_date_desc
    (objects_filter (λ _ p, published_now db (clock request) p) (posts db)))).

(** The count of [total_posts] reads the clock again. *)
Definition get_context_data (request : HttpRequest) : View ListExtra :=
  db ← gets id;
  mret (extra_total_posts
    (length (objects_filter (λ _ p, published_now db (clock_again request) p) (posts db)))).

Definition as_view (request : HttpRequest) : View HttpResponse :=
  ListView_dispatch
    (ListView_get template_name (get_queryset request) (get_context_data request) request)
    request.
End HomePage.

Module CategoryListView.
Definition template_name := "blog/category.html".

Definition get_category (category_slug : string) : View (pk * Category) :=
  get_object_or_404_by categories (λ _ c, bool_decide (slug c = category_slug)).

Definition get_queryset (request : HttpRequest) (category_slug : string) : View (list PostRow) :=
  cat ← get_category category_slug;
  if negb (category_is_published cat.2) then raise Http404
  else
    db ← gets id;
    mret (annotate db (order_by_pub_date_desc
      (objects_filter
         (λ _ p, bool_decide (category p = Some cat.1)
                 && is_published p && pub_date__lte (clock request) p)
         (posts db)))).

Definition get_context_data (category_slug : string) : View ListExtra :=
  cat ← get_category category_slug;
  mret (extra_category cat).

Definition as_view (request : HttpRequest) (category_slug : string) : View HttpResponse :=
  ListView_dispatch
    (ListView_get template_name (get_queryset request category_slug)
       (get_context_data category_slug) request)
    request.
End CategoryListView.

Module ProfileListView.
Definition template_name := "blog/profile.html".

Definition get_profile (name : string) : View (pk * User) :=
  get_object_or_404_by users (λ _ u, bool_decide (username u = name)).

Definition get_queryset (name : string) : View (list PostRow) :=
  profile ← get_profile name;
  db ← gets id;
  mret (annotate db (order_by_pub_date_desc
    (objects_filter (λ _ p, bool_decide (author p = profile.1)) (posts db)))).

Definition get_context_data (name : string) : View ListExtra :=
  profile ← get_profile name;
  mret (extra_profile profile).

Definition as_view (request : HttpRequest) (name : string) : View HttpResponse :=
  ListView_dispatch
    (ListView_get template_name (get_queryset name) (get_context_data name) request)
    request.
End ProfileListView.

Definition post_detail (request : HttpRequest) (post_id : N) : View HttpResponse :=
  current_post ← get_object_or_404_pk posts post_id;
  current_post ←
    (if user_ne (user request) (author current_post.2)
     then
       found ← get_object_or_404_pk posts post_id;
       db ← gets id;
       if published_now db (clock request) found.2 then mret found else raise Http404
     else mret current_post);
  db ← gets id;
  let post_comments :=
    objects_filter (λ _ c, bool_decide (comment_post c = current_post.1)) (comments db) in
  mret (render "blog/detail.html" (ctx_detail current_post (mkForm None None None) post_comments)).

(** The forms the handlers build from a request. *)

(** [PostForm(request.POST or None, request.FILES or None, instance=instance)] *)
Definition post_form (request : HttpRequest) (instance : option (pk * Post)) : Form Post :=
  mkForm (or_None (request_POST request)) (or_None (request_FILES request)) instance.

(** [CommentForm(request.POST or None, instance=comment)] *)
Definition comment_form (request : HttpRequest) (comment : option (pk * Comment)) :
    Form Comment :=
  mkForm (or_None (request_POST request)) None comment.

(** [ProfileEditForm(request.POST, instance=profile)] *)
Definition profile_form (request : HttpRequest) (profile : pk * User) : Form User :=
  mkForm (Some (request_POST request)) None (Some profile).

Section views.
Context (decl : Declarations).

Definition edit_profile : HttpRequest → View HttpResponse :=
  login_required "/auth/login/" (λ request,
    profile ← as_user_row (user request);
    if decide (method request = POST) then
      let form := mkForm (Some (request_POST request)) None (Some profile) in
      db ← gets id;
      if is_valid (ProfileEditForm decl) db form then
        (* [form.save()] writes the instance, which is [profile] itself *)
        let saved := form_save_no_commit (ProfileEditForm decl) form in
        modify (set_users (λ t, save_row t (Some profile.1) saved));;
        shortcuts.redirect (blog_profile (username saved))
      else mret (render "blog/user.html" (ctx_profile_form form))
    else
      let form := mkForm None None (Some profile) in
      mret (render "blog/user.html" (ctx_profile_form form))).

(** Lines 176 to 189 of [create_post], reached with the instance to
    edit or with none. *)
Definition create_post_form (request : HttpRequest) (instance : option (pk * Post)) :
    View HttpResponse :=
  let form :=
    mkForm (or_None (request_POST request)) (or_None (request_FILES request)) instance in
  db ← gets id;
  if is_valid (PostForm decl) db form then
    author_row ← as_user_row (user request);
    let new_post := with_author author_row.1 (form_save_no_commit (PostForm decl) form) in
    modify (set_posts (λ t, save_row t (fst <$> instance) new_post));;
    shortcuts.redirect (blog_profile (username author_row.2))
  else mret (render "blog/create.html" (ctx_post_form form)).

Definition create_post (pk_post : option N) : HttpRequest → View HttpResponse :=
  login_required "/auth/login/" (λ request,
    match pk_post with
    | Some n =>
        if int_truthy n then
          instance ← get_object_or_404_pk posts n;
          if user_ne (user request) (author instance.2)
          then shortcuts.redirect (blog_post_detail (Npos instance.1))
          else create_post_form request (Some instance)
        else create_post_form request None
    | None => create_post_form request None
    end).

(** [instance.delete()] on a post: the row goes, and the comments on it
    follow the rule their foreign key declares. *)
Definition Post_delete (k : pk) (db : DB) : DB :=
  mkDB (users db) (categories db) (delete k (posts db))
    (Comment_post_on_delete decl k (comments db)).

Definition delete_post (pk_post : N) : HttpRequest → View HttpResponse :=
  login_required "/auth/login/" (λ request,
    instance ← get_object_or_404_pk posts pk_post;
    if user_ne (user request) (author instance.2) && negb (user_is_staff (user request))
    then shortcuts.redirect (blog_post_detail (Npos instance.1))
    else
      let form := mkForm None None (Some instance) in
      if decide (method request = POST) then
        modify (Post_delete instance.1);;
        shortcuts.redirect blog_index
      else mret (render "blog/create.html" (ctx_post_form form))).

(** Lines 224 to 240 of [add_comment], reached with the comment to edit
    or with none. *)
Definition add_comment_form (request : HttpRequest) (post : pk * Post)
    (comment : option (pk * Comment)) : View HttpResponse :=
  let form := mkForm (or_None (request_POST request)) None comment in
  db ← gets id;
  if decide (method request = POST) then
    if is_valid (CommentForm decl) db form then
      author_row ← as_user_row (user request);
      let saved :=
        with_author_post author_row.1 post.1 (form_save_no_commit (CommentForm decl) form) in
      modify (set_comments (λ t, save_row t (fst <$> comment) saved));;
      shortcuts.redirect (blog_post_detail (Npos post.1))
    else mret (render "blog/comment.html" (ctx_comment_form form post))
  else mret (render "blog/comment.html" (ctx_comment_form form post)).

Definition add_comment (post_id : N) (comment_id : option N) :
    HttpRequest → View HttpResponse :=
  login_required "/auth/login/" (λ request,
    post ← get_object_or_404_pk posts post_id;
    match comment_id with
    | Some n =>
        if int_truthy n then
          (* [get_object_or_404(Comment, pk=comment_id, post=post)] *)
          found ← get_object_or_404_pk comments n;
          comment ← (if bool_decide (comment_post found.2 = post.1)
                     then mret found else raise Http404);
          if user_ne (user request) (comment_author comment.2)
          then shortcuts.redirect (blog_post_detail (Npos post.1))
          else add_comment_form request post (Some comment)
        else add_comment_form request post None
    | None => add_comment_form request post None
    end).

Definition delete_comment (post_id comment_id : N) : HttpRequest → View HttpResponse :=
  login_required "/auth/login/" (λ request,
    comment ← get_object_or_404_pk comments comment_id;
    if user_ne (user request) (comment_author comment.2)
    then shortcuts.redirect (blog_post_detail post_id)
    else if decide (method request = POST) then
      modify (set_comments (delete comment.1));;
      shortcuts.redirect (blog_post_detail post_id)
    else mret (render "blog/comment.html" (ctx_comment comment))).

(** ** The routing table of [blog/urls.py] *)

(** A request path once resolved: the name of the route and the
    arguments its converters captured. *)
Inductive Route :=
  | url_index
  | url_category_posts (category_slug : string)
  | url_profile (name : string)
  | url_edit_profile
  | url_post_detail (post_id : N)
  | url_create_post
  | url_edit_post (pk_post : N)
  | url_delete_post (pk_post : N)
  | url_add_comment (post_id : N)
  | url_edit_comment (post_id comment_id : N)
  | url_delete_comment (post_id comment_id : N).

Definition urlpatterns (route : Route) (request : HttpRequest) : View HttpResponse :=
  match route with
  | url_index => HomePage.as_view request
  | url_category_posts s => CategoryListView.as_view request s
  | url_profile name => ProfileListView.as_view request name
  | url_edit_profile => edit_profile request
  | url_post_detail n => post_detail request n
  | url_create_post => create_post None request
  | url_edit_post n => create_post (Some n) request
  | url_delete_post n => delete_post n request
  | url_add_comment n => add_comment n None request
  | url_edit_comment n c => add_comment n (Some c) request
  | url_delete_comment n c => delete_comment n c request
  end.

(** One request served: the response and the database after it. *)
Definition serve (route : Route) (request : HttpRequest) (db : DB) : HttpResponse * DB :=
  respond (urlpatterns route request) db.

End views.

(** ** A sample site

    Declarations and a database on which the statements below are
    exercised. *)

Fixpoint field (name : string) (q : QueryDict) : string :=
  match q with
  | [] => ""
  | (k, v) :: q' => if decide (k = name) then v else field name q'
  end.

Definition required (name : string) (q : QueryDict) : list string :=
  if decide (field name q = "") then [name +:+ ": this field is required"] else [].

Definition sample_PostForm : ModelForm Post :=
  mkModelForm
    (λ db data files instance, (required "title" data ++ required "text" data)%list)
    (λ data files instance,
       let old := snd <$> instance in
       mkPost (field "title" data) (field "text" data) None
         (default 0 (pub_date <$> old)) true
         (default 1%positive (author <$> old)) (Some 1%positive)).

Definition sample_CommentForm : ModelForm Comment :=
  mkModelForm
    (λ db data files instance, required "text" data)
    (λ data files instance,
       let old := snd <$> instance in
       mkComment (field "text" data)
         (default 1%positive (comment_author <$> old))
         (default 1%positive (comment_post <$> old))
         (default 0 (created_at <$> old))).

Definition sample_ProfileEditForm : ModelForm User :=
  mkModelForm
    (λ db data files instance, required "username" data)
    (λ data files instance,
       let old := snd <$> instance in
       mkUser (field "username" data) (field "first_name" data) (field "last_name" data)
         (field "email" data) (default false (is_staff <$> old))).

(** The sample declares [on_delete=CASCADE] for [Comment.post]. *)
Definition sample_decl : Declarations :=
  mkDeclarations sample_PostForm sample_CommentForm sample_ProfileEditForm
    (λ k t, filter (λ kc, comment_post kc.2 ≠ k) t).

Definition alice : User := mkUser "alice" "Alice" "A" "alice@example.org" false.
Definition bob : User := mkUser "bob" "Bob" "B" "bob@example.org" false.
Definition staff : User := mkUser "staff" "Site" "Staff" "staff@example.org" true.

Definition sample_db : DB :=
  mkDB
    (list_to_map [(1%positive, alice); (2%positive, bob); (3%positive, staff)])
    (list_to_map [(1%positive, mkCategory "news" "News" true);
                  (2%positive, mkCategory "hidden" "Hidden" false)])
    (list_to_map
       [(1%positive, mkPost "first" "hello" None 100 true 1%positive (Some 1%positive));
        (2%positive, mkPost "draft" "not yet" None 50 false 1%positive (Some 1%positive));
        (3%positive, mkPost "later" "scheduled" None 900 true 2%positive (Some 1%positive));
        (4%positive, mkPost "aside" "in a hidden category" None 10 true 2%positive
                       (Some 2%positive))])
    (list_to_map
       [(1%positive, mkComment "nice" 2%positive 1%positive 110);
        (2%positive, mkComment "thanks" 1%positive 1%positive 120)]).

(** A request at time 500 with an empty body. *)
Definition sample_request (m : Method) (u : RequestUser) : HttpRequest :=
  mkRequest m u "/here/" [] [] None 500 500.

(** The same with submitted fields. *)
Definition sample_submission (u : RequestUser) (data : QueryDict) : HttpRequest :=
  mkRequest POST u "/here/" data [] None 500 500.

(** ** What a response shows *)

Definition listing_rows (r : HttpResponse) : list PostRow :=
  match r with
  | render _ (ctx_list rows _) => rows
  | _ => []
  end.

(** The three listing views. *)
Inductive Listing :=
  | home_feed
  | category_feed (category_slug : string)
  | profile_feed (name : string).

Definition listing_route (l : Listing) : Route :=
  match l with
  | home_feed => url_index
  | category_feed s => url_category_posts s
  | profile_feed name => url_profile name
  end.

(** The queryset each listing view paginates. *)
Definition listing_queryset (l : Listing) (request : HttpRequest) : View (list PostRow) :=
  match l with
  | home_feed => HomePage.get_queryset request
  | category_feed s => CategoryListView.get_queryset request s
  | profile_feed name => ProfileListView.get_queryset name
  end.

(** The order of a listing, on its rows. *)
Definition row_date_desc (a b : PostRow) : Prop :=
  pub_date (row_post b) ≤ pub_date (row_post a).

(** Two rows of the sample post table as a listing shows them. *)
Definition sample_first_row : PostRow :=
  mkPostRow 1 (mkPost "first" "hello" None 100 true 1%positive (Some 1%positive)) 2.
Definition sample_draft_row : PostRow :=
  mkPostRow 2 (mkPost "draft" "not yet" None 50 false 1%positive (Some 1%positive)) 0.

(** The routes that create, change or delete a record. *)
Definition mutating (route : Route) : bool :=
  match route with
  | url_edit_profile | url_create_post | url_edit_post _ | url_delete_post _
  | url_add_comment _ | url_edit_comment _ _ | url_delete_comment _ _ => true
  | url_index | url_category_posts _ | url_profile _ | url_post_detail _ => false
  end.


(** The template and the additions to the context of each listing view. *)
Definition listing_template (l : Listing) : string :=
  match l with
  | home_feed => HomePage.template_name
  | category_feed _ => CategoryListView.template_name
  | profile_feed _ => ProfileListView.template_name
  end.

Definition listing_extra (l : Listing) (request : HttpRequest) : View ListExtra :=
  match l with
  | home_feed => HomePage.get_context_data request
  | category_feed s => CategoryListView.get_context_data s
  | profile_feed name => ProfileListView.get_context_data name
  end.

(** ** The writes of the handlers

    The statements the handlers issue against the database, one
    constructor for each [save()] and [delete()] of [views.py]. *)
Inductive Write :=
  | no_write
  | save_profile (k : pk) (row : User)
  | insert_post (row : Post)
  | update_post (k : pk) (row : Post)
  | remove_post (k : pk)
  | insert_comment (row : Comment)
  | update_comment (k : pk) (row : Comment)
  | remove_comment (k : pk).

Definition perform (decl : Declarations) (w : Write) (db : DB) : DB :=
  match w with
  | no_write => db
  | save_profile k row => set_users (λ t, save_row t (Some k) row) db
  | insert_post row => set_posts (λ t, save_row t None row) db
  | update_post k row => set_posts (λ t, save_row t (Some k) row) db
  | remove_post k => Post_delete decl k db
  | insert_comment row => set_comments (λ t, save_row t None row) db
  | update_comment k row => set_comments (λ t, save_row t (Some k) row) db
  | remove_comment k => set_comments (delete k) db
  end.

(** The conditions under which a handler issues a write: what the guards
    in front of each [save()] and [delete()] have established about the
    requester [uid], [u] and the database. *)
Definition guarded (uid : pk) (u : User) (db : DB) (w : Write) : Prop :=
  match w with
  | no_write => True
  | save_profile k row => k = uid
  | insert_post row => author row = uid
  | update_post k row =>
      ∃ p, posts db !! k = Some p ∧ author p = uid ∧ author row = uid
  | remove_post k =>
      ∃ p, posts db !! k = Some p ∧ (author p = uid ∨ is_staff u = true)
  | insert_comment row =>
      comment_author row = uid ∧ is_Some (posts db !! comment_post row)
  | update_comment k row =>
      ∃ c, comments db !! k = Some c ∧ comment_author c = uid ∧
           comment_author row = uid ∧ comment_post row = comment_post c
  | remove_comment k =>
      ∃ c, comments db !! k = Some c ∧ comment_author c = uid
  end.

(** The declared rule for [Comment.post] only ever removes comments, and
    removes those on the deleted post ([on_delete=CASCADE] does). *)
Definition on_delete_removes (decl : Declarations) : Prop :=
  ∀ kp t k c,
    Comment_post_on_delete decl kp t !! k = Some c → t !! k = Some c ∧ comment_post c ≠ kp.

(** The references of the stored rows resolve: every post has its author,
    every comment its author and its post. *)
Definition references_resolve (db : DB) : Prop :=
  (∀ k p, posts db !! k = Some p → is_Some (users db !! author p))
  ∧ (∀ k c, comments db !! k = Some c →
       is_Some (users db !! comment_author c) ∧ is_Some (posts db !! comment_post c)).

(** [request.user], when authenticated, is a row of the user table. *)
Definition requester_known (request : HttpRequest) (db : DB) : Prop :=
  ∀ uid u, user request = AuthUser uid u → is_Some (users db !! uid).

(** What the client receives when a handler ends in [redirect(to)]: the
    redirect, or a server error when the path cannot be built. *)
Definition redirect_response (to : Location) : HttpResponse :=
  if reversible to then redirect to else HttpResponseServerError.

(** The request as it stands at the second reading of the clock. *)
Definition at_second_reading (request : HttpRequest) : HttpRequest :=
  mkRequest (method request) (user request) (path request) (body_fields request)
    (body_files request) (GET_page request) (clock_again request) (clock_again request).

(** The keys of the stored posts and comments fit the key column. *)
Definition keys_fit (db : DB) : Prop :=
  (∀ k p, posts db !! k = Some p → (Npos k < key_limit)%N)
  ∧ (∀ k c, comments db !! k = Some c → (Npos k < key_limit)%N).

(** ** Reasoning about handlers *)

Ltac unfold_view :=
  unfold shortcuts.redirect, mbind, mret, View_bind, View_ret, raise, gets, modify in *;
  simpl in *.

(** A decidable statement about the sample site, settled by evaluation. *)
Ltac decide_by_compute :=
  match goal with
  | |- ?P => apply (bool_decide_unpack P); vm_compute; exact I
  end.

(** A handler step that leaves the database as it found it. *)
Definition readonly {A} (v : View A) : Prop := ∀ db, (v db).2 = db.

Create HintDb readonly.

Lemma readonly_mret {A} (a : A) : readonly (mret a).
Proof. by intros db. Qed.

Lemma readonly_raise {A} e : readonly (raise (A := A) e).
Proof. by intros db. Qed.

Lemma readonly_gets {A} (f : DB → A) : readonly (gets f).
Proof. by intros db. Qed.

Lemma readonly_bind {A B} (m : View A) (k : A → View B) :
  readonly m → (∀ a, readonly (k a)) → readonly (m ≫= k).
Proof.
  intros Hm Hk db. unfold_view. specialize (Hm db).
  destruct (m db) as [[a|e] db1]; simpl in *; subst; [apply Hk | done].
Qed.

Lemma readonly_if {A} (b : bool) (v w : View A) :
  readonly v → readonly w → readonly (if b then v else w).
Proof. by destruct b. Qed.

Lemma readonly_get_object_or_404_pk {A} (table : DB → gmap positive A) n :
  readonly (get_object_or_404_pk table n).
Proof.
  intros db. unfold get_object_or_404_pk.
  destruct (lookup_pk (table db) n); [done|]. by destruct (bool_decide _).
Qed.

Lemma readonly_get_object_or_404_by {A} (table : DB → gmap positive A) cond :
  readonly (get_object_or_404_by table cond).
Proof.
  intros db. unfold get_object_or_404_by.
  by destruct (objects_filter cond (table db)) as [|? [|??]].
Qed.

Lemma readonly_paginate_queryset {A} (qs : list A) n page :
  readonly (paginate_queryset qs n page).
Proof.
  intros db. unfold paginate_queryset.
  destruct page as [[z| |]|]; unfold_view;
    repeat (destruct (bool_decide _); simpl); done.
Qed.

Lemma readonly_as_user_row u : readonly (as_user_row u).
Proof. by destruct u. Qed.

#[global] Hint Resolve readonly_mret readonly_raise readonly_gets readonly_if
  readonly_get_object_or_404_pk readonly_get_object_or_404_by
  readonly_paginate_queryset readonly_as_user_row : readonly.
#[global] Hint Extern 2 (readonly (_ ≫= _)) => apply readonly_bind; [|intros ?] : readonly.

(** A step that ran to its end did so on an unchanged database. *)
Lemma readonly_Done {A} (v : View A) db a db' :
  readonly v → v db = (Done a, db') → db' = db.
Proof. intros Hv Heq. specialize (Hv db). by rewrite Heq in Hv. Qed.

(** *** Queries *)

Lemma elem_of_objects_filter {A} (cond : pk → A → bool) (table : gmap positive A) k a :
  (k, a) ∈ objects_filter cond table ↔ table !! k = Some a ∧ cond k a = true.
Proof.
  unfold objects_filter. rewrite list_elem_of_filter, elem_of_map_to_list. simpl. tauto.
Qed.

Lemma lookup_pk_Some {A} (table : gmap positive A) k a :
  table !! k = Some a → lookup_pk table (Npos k) = Some (k, a).
Proof. intros E. simpl. by rewrite E. Qed.

Lemma lookup_pk_inv {A} (table : gmap positive A) n row :
  lookup_pk table n = Some row → n = Npos row.1 ∧ table !! row.1 = Some row.2.
Proof.
  destruct n as [|k]; [done|]. simpl.
  destruct (table !! k) eqn:E; [|done]. by intros [= <-].
Qed.

Lemma get_object_or_404_pk_Some {A} (table : DB → gmap positive A) k a db :
  table db !! k = Some a → get_object_or_404_pk table (Npos k) db = (Done (k, a), db).
Proof. intros E. unfold get_object_or_404_pk. by rewrite (lookup_pk_Some _ _ _ E). Qed.

Lemma get_object_or_404_pk_None {A} (table : DB → gmap positive A) n db :
  lookup_pk (table db) n = None →
  (n < key_limit)%N →
  get_object_or_404_pk table n db = (Raise Http404, db).
Proof.
  intros E Hn. unfold get_object_or_404_pk. rewrite E.
  by rewrite bool_decide_eq_false_2 by lia.
Qed.

Lemma get_object_or_404_pk_overflow {A} (table : DB → gmap positive A) n db :
  lookup_pk (table db) n = None →
  (key_limit ≤ n)%N →
  get_object_or_404_pk table n db = (Raise OverflowError, db).
Proof.
  intros E Hn. unfold get_object_or_404_pk. rewrite E.
  by rewrite bool_decide_eq_true_2.
Qed.

(** A lookup by key fails with a 404 or with [OverflowError], and leaves
    the database alone. *)
Lemma get_object_or_404_pk_Raise {A} (table : DB → gmap positive A) n db e db' :
  get_object_or_404_pk table n db = (Raise e, db') →
  db' = db ∧ lookup_pk (table db) n = None
  ∧ (e = Http404 ∧ (n < key_limit)%N ∨ e = OverflowError ∧ (key_limit ≤ n)%N).
Proof.
  unfold get_object_or_404_pk. destruct (lookup_pk (table db) n); [done|].
  case_bool_decide; intros [= <- <-]; (split; [done|]); (split; [done|]);
    [right|left]; split; (done || lia).
Qed.

Lemma get_object_or_404_by_Done {A} (table : DB → gmap positive A) cond db row db' :
  get_object_or_404_by table cond db = (Done row, db') →
  db' = db ∧ table db !! row.1 = Some row.2 ∧ cond row.1 row.2 = true.
Proof.
  unfold get_object_or_404_by.
  destruct (objects_filter cond (table db)) as [|r [|??]] eqn:E; [done| |done].
  intros [= <- <-]. split; [done|].
  apply elem_of_objects_filter. destruct r. rewrite E. left.
Qed.

Lemma get_object_or_404_by_None {A} (table : DB → gmap positive A) cond db :
  (∀ k a, table db !! k = Some a → cond k a = false) →
  get_object_or_404_by table cond db = (Raise Http404, db).
Proof.
  intros Hno. unfold get_object_or_404_by.
  destruct (objects_filter cond (table db)) as [|[k a] ?] eqn:E; [done|].
  assert ((k, a) ∈ objects_filter cond (table db)) as Hin by (rewrite E; left).
  apply elem_of_objects_filter in Hin as [Hk Hc]. rewrite (Hno _ _ Hk) in Hc. done.
Qed.

(** *** Pages *)

Lemma paginate_queryset_Done {A} (qs : list A) n page db l db' :
  paginate_queryset qs n page db = (Done l, db') →
  db' = db ∧ ∃ bottom k, l = take k (drop bottom qs) ∧ (k ≤ n)%nat.
Proof.
  unfold paginate_queryset.
  destruct page as [[z| |]|]; unfold_view; repeat case_bool_decide;
    intros [= <- <-]; (split; [done|]); eexists _, _; (split; [done|]).
  all: lia.
Qed.

Lemma num_pages_pos count n : (0 < n)%nat → (1 ≤ num_pages count n)%nat.
Proof. intros Hn. unfold num_pages. apply Nat.div_le_lower_bound; lia. Qed.

Lemma paginate_queryset_first {A} (qs : list A) n db :
  (0 < n)%nat →
  paginate_queryset qs n None db = (Done (take n qs), db).
Proof.
  intros Hn. unfold paginate_queryset. unfold_view.
  pose proof (num_pages_pos (length qs) n Hn).
  rewrite bool_decide_eq_false_2 by lia.
  rewrite Nat.sub_0_r. case_bool_decide; [|done].
  change (drop 0 qs) with qs. rewrite !take_ge by lia. done.
Qed.

(** *** Listings *)

(** The rows of a filtered, ordered, annotated query are rows of the post
    table that satisfy the filter. *)
Lemma elem_of_queryset db cond row :
  row ∈ annotate db (order_by_pub_date_desc (objects_filter cond (posts db))) →
  posts db !! row_pk row = Some (row_post row) ∧ cond (row_pk row) (row_post row) = true.
Proof.
  unfold annotate, order_by_pub_date_desc.
  rewrite list_elem_of_fmap. intros ([k p] & -> & Hin). simpl.
  rewrite merge_sort_Permutation in Hin. by apply elem_of_objects_filter.
Qed.

Lemma queryset_sorted db cond :
  StronglySorted row_date_desc
    (annotate db (order_by_pub_date_desc (objects_filter cond (posts db)))).
Proof.
  unfold annotate, order_by_pub_date_desc.
  apply (StronglySorted_fmap _ pub_date_desc); [done|].
  apply Sorted_StronglySorted; [apply _|]. apply Sorted_merge_sort. apply _.
Qed.

Lemma StronglySorted_slice {A} (R : relation A) (l : list A) bottom k :
  StronglySorted R l → StronglySorted R (take k (drop bottom l)).
Proof.
  intros Hl. rewrite <- (take_drop bottom l) in Hl.
  apply StronglySorted_app_1_r in Hl.
  rewrite <- (take_drop k (drop bottom l)) in Hl.
  by apply StronglySorted_app_1_l in Hl.
Qed.

Lemma elem_of_slice {A} (l : list A) bottom k x :
  x ∈ take k (drop bottom l) → x ∈ l.
Proof.
  intros Hx. by apply subseteq_take, subseteq_drop in Hx.
Qed.

Lemma readonly_listing_queryset l request : readonly (listing_queryset l request).
Proof.
  destruct l; simpl;
    unfold HomePage.get_queryset, CategoryListView.get_queryset,
      CategoryListView.get_category, ProfileListView.get_queryset,
      ProfileListView.get_profile; auto 10 with readonly.
Qed.

(** A listing view that renders shows a slice, of at most
    [PAGE_PAGINATOR] rows, of its queryset, and writes nothing. *)
Lemma listing_page decl l request db t page extra db' :
  serve decl (listing_route l) request db = (render t (ctx_list page extra), db') →
  db' = db ∧
  ∃ qs bottom k,
    listing_queryset l request db = (Done qs, db) ∧
    page = take k (drop bottom qs) ∧ (k ≤ PAGE_PAGINATOR)%nat.
Proof.
  unfold serve, respond.
  assert (∀ tpl e, readonly e →
    (let '(o, db1) :=
       ListView_dispatch (ListView_get tpl (listing_queryset l request) e request) request db in
     match o with
     | Done r => (r, db1)
     | Raise Http404 => (HttpResponseNotFound, db1)
     | Raise _ => (HttpResponseServerError, db1)
     end) = (render t (ctx_list page extra), db') →
    db' = db ∧ ∃ qs bottom k,
      listing_queryset l request db = (Done qs, db) ∧
      page = take k (drop bottom qs) ∧ (k ≤ PAGE_PAGINATOR)%nat) as Hget.
  { intros tpl e He. unfold ListView_dispatch, ListView_get.
    pose proof (readonly_listing_queryset l request db) as Hq.
    destruct (method request); unfold_view; try done.
    all: destruct (listing_queryset l request db) as [[qs|[]] db1]; simpl in *; subst; try done.
    all: destruct (paginate_queryset qs PAGE_PAGINATOR (GET_page request) db)
           as [[pg|[]] db2] eqn:Hp; try done.
    all: apply paginate_queryset_Done in Hp as (-> & bottom & k & -> & Hk).
    all: pose proof (He db) as Hedb.
    all: destruct (e db) as [[x|[]] db3]; simpl in *; subst; try done.
    all: intros [= <- <- <- <-]; split; [done|]; by exists qs, bottom, k. }
  destruct l; simpl; apply Hget.
  - unfold HomePage.get_context_data. auto 10 with readonly.
  - unfold CategoryListView.get_context_data, CategoryListView.get_category.
    auto 10 with readonly.
  - unfold ProfileListView.get_context_data, ProfileListView.get_profile.
    auto 10 with readonly.
Qed.

(** ** The public listings *)

(** The rows a listing shows.  Every row shown by the home feed or by a
    category feed is a post of the database that, at the time of the
    request, is published, is not dated in the future and lies in a
    published category.  Every row shown by a profile feed is a post of
    the database whose author is the user the profile names. *)
Theorem listing_rows_filtered decl l request db row :
  row ∈ listing_rows (serve decl (listing_route l) request db).1 →
  posts db !! row_pk row = Some (row_post row) ∧
  match l with
  | profile_feed name =>
      ∃ u, users db !! author (row_post row) = Some u ∧ username u = name
  | _ => published_now db (clock request) (row_post row) = true
  end.
Proof.
  destruct (serve decl (listing_route l) request db) as [r db'] eqn:Hserve.
  destruct r as [t [page extra| | | | |]| | | | |]; simpl; try by intros ?%elem_of_nil.
  intros Hrow.
  apply listing_page in Hserve as (-> & qs & bottom & k & Hqs & -> & _).
  apply elem_of_slice in Hrow.
  destruct l as [|s|name]; simpl in Hqs.
  - unfold HomePage.get_queryset in Hqs. unfold_view. injection Hqs as <-.
    by apply elem_of_queryset in Hrow.
  - unfold CategoryListView.get_queryset, CategoryListView.get_category in Hqs.
    unfold_view.
    destruct (get_object_or_404_by categories _ db) as [[cat|e] db1] eqn:Hcat; [|done].
    apply get_object_or_404_by_Done in Hcat as (-> & Hlookup & _).
    destruct (category_is_published cat.2) eqn:Hpub; simpl in Hqs; [|done].
    injection Hqs as <-. apply elem_of_queryset in Hrow as [Hpost Hcond].
    split; [done|].
    apply andb_true_iff in Hcond as [Hcond Hdate].
    apply andb_true_iff in Hcond as [Hc Hp]. apply bool_decide_eq_true in Hc.
    unfold published_now, category__is_published.
    by rewrite Hp, Hdate, Hc, Hlookup, Hpub.
  - unfold ProfileListView.get_queryset, ProfileListView.get_profile in Hqs.
    unfold_view.
    destruct (get_object_or_404_by users _ db) as [[prof|e] db1] eqn:Hprof; [|done].
    apply get_object_or_404_by_Done in Hprof as (-> & Hlookup & Hname).
    injection Hqs as <-. apply elem_of_queryset in Hrow as [Hpost Hcond].
    split; [done|].
    apply bool_decide_eq_true in Hcond. apply bool_decide_eq_true in Hname.
    exists prof.2. by rewrite Hcond.
Qed.

Lemma listing_rows_filtered_witness :
  sample_first_row
    ∈ listing_rows
        (serve sample_decl (listing_route (category_feed "news"))
           (sample_request GET AnonymousUser) sample_db).1
  ∧ published_now sample_db 500 (row_post sample_first_row) = true.
Proof.
  assert (sample_first_row
    ∈ listing_rows
        (serve sample_decl (listing_route (category_feed "news"))
           (sample_request GET AnonymousUser) sample_db).1) as Hrow.
  { vm_compute. left. }
  split; [exact Hrow|].
  exact (proj2 (listing_rows_filtered sample_decl (category_feed "news")
                  (sample_request GET AnonymousUser) sample_db sample_first_row Hrow)).
Defined.

(** C1.  The code at the failing input.  An anonymous visitor of alice's
    profile is shown her draft, a post that is not published.  The home
    feed and the feed of its category leave that post out at the same
    moment, and the detail route answers the same visitor with a 404 for
    it: [ProfileListView.get_queryset] filters on the author alone. *)
Theorem profile_feed_shows_unpublished :
  (serve sample_decl (url_profile "alice") (sample_request GET AnonymousUser) sample_db).1
    = render "blog/profile.html"
        (ctx_list [sample_first_row; sample_draft_row] (extra_profile (1%positive, alice)))
  ∧ posts sample_db !! 2%positive = Some (row_post sample_draft_row)
  ∧ is_published (row_post sample_draft_row) = false
  ∧ published_now sample_db (clock (sample_request GET AnonymousUser))
      (row_post sample_draft_row) = false
  ∧ listing_rows
      (serve sample_decl url_index (sample_request GET AnonymousUser) sample_db).1
    = [sample_first_row]
  ∧ listing_rows
      (serve sample_decl (url_category_posts "news") (sample_request GET AnonymousUser)
         sample_db).1
    = [sample_first_row]
  ∧ serve sample_decl (url_post_detail 2) (sample_request GET AnonymousUser) sample_db
    = (HttpResponseNotFound, sample_db).
Proof. repeat split; vm_compute; reflexivity. Qed.

(** C9.  A listing view that renders a page shows at most ten rows, in
    descending order of publication date; the page is a run of
    consecutive rows of the ordered queryset. *)
Theorem listing_sorted_and_paged decl l request db t page extra db' :
  serve decl (listing_route l) request db = (render t (ctx_list page extra), db') →
  StronglySorted row_date_desc page ∧ (length page ≤ 10)%nat ∧
  ∃ qs bottom k,
    listing_queryset l request db = (Done qs, db) ∧
    StronglySorted row_date_desc qs ∧ page = take k (drop bottom qs).
Proof.
  intros Hserve.
  apply listing_page in Hserve as (-> & qs & bottom & k & Hqs & -> & Hk).
  assert (StronglySorted row_date_desc qs) as Hsorted.
  { destruct l as [|s|name]; simpl in Hqs.
    - unfold HomePage.get_queryset in Hqs. unfold_view. injection Hqs as <-.
      apply queryset_sorted.
    - unfold CategoryListView.get_queryset in Hqs. unfold_view.
      destruct (CategoryListView.get_category s db) as [[cat|e] db1]; [|done].
      destruct (category_is_published cat.2); simpl in Hqs; [|done].
      injection Hqs as <- _. apply queryset_sorted.
    - unfold ProfileListView.get_queryset in Hqs. unfold_view.
      destruct (ProfileListView.get_profile name db) as [[prof|e] db1]; [|done].
      injection Hqs as <- _. apply queryset_sorted. }
  split; [by apply StronglySorted_slice|]. split.
  - rewrite length_take. unfold PAGE_PAGINATOR in Hk. lia.
  - by exists qs, bottom, k.
Qed.

Lemma listing_sorted_and_paged_witness :
  StronglySorted row_date_desc [sample_first_row; sample_draft_row]
  ∧ (length [sample_first_row; sample_draft_row] ≤ 10)%nat.
Proof.
  assert (serve sample_decl (listing_route (profile_feed "alice"))
            (sample_request GET AnonymousUser) sample_db
          = (render "blog/profile.html"
               (ctx_list [sample_first_row; sample_draft_row]
                  (extra_profile (1%positive, alice))), sample_db)) as Hserve.
  { vm_compute. reflexivity. }
  pose proof (listing_sorted_and_paged _ _ _ _ _ _ _ _ Hserve) as (Hs & Hl & _).
  exact (conj Hs Hl).
Defined.

(** The first page of the home feed always renders: the first ten rows
    of the ordered queryset. *)
Lemma home_feed_first_page decl request db :
  method request = GET →
  GET_page request = None →
  ∃ qs extra,
    HomePage.get_queryset request db = (Done qs, db) ∧
    serve decl url_index request db
      = (render "blog/index.html" (ctx_list (take 10 qs) extra), db).
Proof.
  intros Hmethod Hpage. eexists _, _. split; [done|].
  unfold serve, respond, urlpatterns, HomePage.as_view, ListView_dispatch, ListView_get,
    HomePage.get_queryset, HomePage.get_context_data.
  rewrite Hmethod, Hpage. unfold mbind, mret, View_bind, View_ret, gets. cbv beta iota.
  rewrite paginate_queryset_first by (unfold PAGE_PAGINATOR; lia). done.
Qed.

(** ** The login gate *)

(** C4.  A request by an unauthenticated requester to any of the mutating
    routes is answered by a redirect to the login page at [/auth/login/]
    (with the path to come back to) and leaves the database as it was. *)
Theorem anonymous_mutation_rejected decl route request db :
  mutating route = true →
  user request = AnonymousUser →
  serve decl route request db
    = (redirect (login_page "/auth/login/" (path request)), db).
Proof.
  intros Hroute Huser.
  destruct route; try discriminate Hroute; unfold serve, respond; simpl;
    unfold edit_profile, create_post, delete_post, add_comment, delete_comment,
      login_required; by rewrite Huser.
Qed.

Lemma anonymous_mutation_rejected_witness :
  serve sample_decl (url_delete_post 1) (sample_request POST AnonymousUser) sample_db
    = (redirect (login_page "/auth/login/" "/here/"), sample_db).
Proof.
  exact (anonymous_mutation_rejected sample_decl (url_delete_post 1)
           (sample_request POST AnonymousUser) sample_db eq_refl eq_refl).
Defined.

(** ** Deleting *)

(** What [delete_post] does with an existing post for an authenticated
    requester. *)
Lemma delete_post_run decl request uid u db k p :
  user request = AuthUser uid u →
  posts db !! k = Some p →
  serve decl (url_delete_post (Npos k)) request db =
    if negb (bool_decide (uid = author p)) && negb (is_staff u)
    then (redirect (blog_post_detail (Npos k)), db)
    else if decide (method request = POST) then (redirect blog_index, Post_delete decl k db)
    else (render "blog/create.html" (ctx_post_form (mkForm None None (Some (k, p)))), db).
Proof.
  intros Huser Hp. unfold serve, respond. simpl. unfold delete_post, login_required.
  rewrite Huser. unfold_view. rewrite (get_object_or_404_pk_Some posts k p db Hp). simpl.
  destruct (negb (bool_decide (uid = author p)) && negb (is_staff u)); [done|].
  by destruct (decide (method request = POST)).
Qed.

(** What [delete_comment] does with an existing comment for an
    authenticated requester. *)
Lemma delete_comment_run decl request uid u db n k c :
  user request = AuthUser uid u →
  comments db !! k = Some c →
  serve decl (url_delete_comment n (Npos k)) request db =
    if negb (bool_decide (uid = comment_author c))
    then (redirect (blog_post_detail n), db)
    else if decide (method request = POST)
    then (redirect (blog_post_detail n), set_comments (delete k) db)
    else (render "blog/comment.html" (ctx_comment (k, c)), db).
Proof.
  intros Huser Hc. unfold serve, respond. simpl. unfold delete_comment, login_required.
  rewrite Huser. unfold_view. rewrite (get_object_or_404_pk_Some comments k c db Hc). simpl.
  destruct (negb (bool_decide (uid = comment_author c))); [done|].
  by destruct (decide (method request = POST)).
Qed.

(** C2, as amended.  On a POST by an authenticated requester, an existing
    post is deleted exactly when the requester is its author or is staff,
    and an existing comment is deleted exactly when the requester is its
    author; a requester who may not delete is redirected to the post
    detail route and the database keeps every record. *)
Theorem delete_iff_allowed decl request uid u db :
  user request = AuthUser uid u →
  method request = POST →
  (∀ k p, posts db !! k = Some p →
     let '(r, db') := serve decl (url_delete_post (Npos k)) request db in
     (posts db' !! k = None ↔ uid = author p ∨ is_staff u = true) ∧
     (¬ (uid = author p ∨ is_staff u = true) →
        db' = db ∧ r = redirect (blog_post_detail (Npos k))))
  ∧
  (∀ n k c, comments db !! k = Some c →
     let '(r, db') := serve decl (url_delete_comment n (Npos k)) request db in
     (comments db' !! k = None ↔ uid = comment_author c) ∧
     (uid ≠ comment_author c → db' = db ∧ r = redirect (blog_post_detail n))).
Proof.
  intros Huser Hmethod. split.
  - intros k p Hp. rewrite (delete_post_run decl request uid u db k p Huser Hp).
    rewrite decide_True by done.
    case_bool_decide as Hauthor; destruct (is_staff u) eqn:Hstaff; simpl.
    + split; [split; [auto|intros _; apply lookup_delete_eq]|]. intros []; auto.
    + split; [split; [auto|intros _; apply lookup_delete_eq]|]. intros []; auto.
    + split; [split; [auto|intros _; apply lookup_delete_eq]|]. intros []; auto.
    + split; [|done]. rewrite Hp. split; [done|]. intros [|]; done.
  - intros n k c Hc. rewrite (delete_comment_run decl request uid u db n k c Huser Hc).
    rewrite decide_True by done.
    case_bool_decide as Hauthor; simpl.
    + split; [|done]. split; [done|]. intros _. apply lookup_delete_eq.
    + split; [|done]. rewrite Hc. done.
Qed.

Lemma delete_iff_allowed_witness :
  (serve sample_decl (url_delete_post 1) (sample_request POST (AuthUser 3 staff)) sample_db).1
    = redirect blog_index
  ∧ (serve sample_decl (url_delete_comment 1 1) (sample_request POST (AuthUser 1 alice))
       sample_db)
    = (redirect (blog_post_detail 1), sample_db).
Proof.
  pose proof (delete_iff_allowed sample_decl (sample_request POST (AuthUser 3 staff))
                3%positive staff sample_db eq_refl eq_refl) as [Hpost _].
  pose proof (delete_iff_allowed sample_decl (sample_request POST (AuthUser 1 alice))
                1%positive alice sample_db eq_refl eq_refl) as [_ Hcomment].
  specialize (Hpost 1%positive _ eq_refl).
  specialize (Hcomment 1%N 1%positive _ eq_refl).
  split.
  - vm_compute. reflexivity.
  - destruct (serve sample_decl (url_delete_comment 1 1)
                (sample_request POST (AuthUser 1 alice)) sample_db) as [r db'].
    destruct Hcomment as [_ Hkeep].
    destruct Hkeep as [-> ->]; [vm_compute; discriminate|reflexivity].
Defined.

(** C2, as stated, fails on comments: a staff user who is not the author
    of a comment cannot delete it, although the same user can delete a
    post of another author. *)
Lemma staff_cannot_delete_comment :
  is_staff staff = true
  ∧ serve sample_decl (url_delete_comment 1 1) (sample_request POST (AuthUser 3 staff))
      sample_db
    = (redirect (blog_post_detail 1), sample_db)
  ∧ is_Some (comments sample_db !! 1%positive)
  ∧ (serve sample_decl (url_delete_post 1) (sample_request POST (AuthUser 3 staff))
       sample_db).1
    = redirect blog_index.
Proof. repeat split; try (vm_compute; reflexivity). by eexists. Qed.

(** ** Editing *)

(** The form steps of the handlers, for an authenticated requester. *)
Lemma create_post_form_run decl request uid u db instance :
  user request = AuthUser uid u →
  let form := post_form request instance in
  respond (create_post_form decl request instance) db =
    if is_valid (PostForm decl) db form
    then (redirect_response (blog_profile (username u)),
          set_posts (λ t, save_row t (fst <$> instance)
                            (with_author uid (form_save_no_commit (PostForm decl) form))) db)
    else (render "blog/create.html" (ctx_post_form form), db).
Proof.
  intros Huser form. subst form. unfold respond, create_post_form, post_form. unfold_view.
  destruct (is_valid (PostForm decl) db _); [|done]. rewrite Huser. simpl.
  unfold redirect_response. simpl. by destruct (str_converter_matches (username u)).
Qed.

Lemma add_comment_form_run decl request uid u db post comment :
  user request = AuthUser uid u →
  let form := comment_form request comment in
  respond (add_comment_form decl request post comment) db =
    if decide (method request = POST) then
      if is_valid (CommentForm decl) db form
      then (redirect (blog_post_detail (Npos post.1)),
            set_comments (λ t, save_row t (fst <$> comment)
                                 (with_author_post uid post.1
                                    (form_save_no_commit (CommentForm decl) form))) db)
      else (render "blog/comment.html" (ctx_comment_form form post), db)
    else (render "blog/comment.html" (ctx_comment_form form post), db).
Proof.
  intros Huser form. subst form. unfold respond, add_comment_form, comment_form. unfold_view.
  destruct (decide (method request = POST)); [|done].
  destruct (is_valid (CommentForm decl) db _); [|done]. by rewrite Huser.
Qed.

(** What the edit routes do with existing records for an authenticated
    requester. *)
Lemma edit_post_run decl request uid u db k p :
  user request = AuthUser uid u →
  posts db !! k = Some p →
  serve decl (url_edit_post (Npos k)) request db =
    if negb (bool_decide (uid = author p))
    then (redirect (blog_post_detail (Npos k)), db)
    else respond (create_post_form decl request (Some (k, p))) db.
Proof.
  intros Huser Hp. unfold serve. simpl. unfold create_post, login_required.
  rewrite Huser. simpl. unfold respond. unfold_view.
  rewrite (get_object_or_404_pk_Some posts k p db Hp). simpl.
  by destruct (negb (bool_decide (uid = author p))).
Qed.

Lemma edit_comment_run decl request uid u db kp p kc c :
  user request = AuthUser uid u →
  posts db !! kp = Some p →
  comments db !! kc = Some c →
  serve decl (url_edit_comment (Npos kp) (Npos kc)) request db =
    if bool_decide (comment_post c = kp) then
      if negb (bool_decide (uid = comment_author c))
      then (redirect (blog_post_detail (Npos kp)), db)
      else respond (add_comment_form decl request (kp, p) (Some (kc, c))) db
    else (HttpResponseNotFound, db).
Proof.
  intros Huser Hp Hc. unfold serve. simpl. unfold add_comment, login_required.
  rewrite Huser. simpl. unfold respond. unfold_view.
  rewrite (get_object_or_404_pk_Some posts kp p db Hp). simpl.
  rewrite (get_object_or_404_pk_Some comments kc c db Hc). simpl.
  destruct (bool_decide (comment_post c = kp)); [|done].
  cbn [fst snd]. by destruct (negb (bool_decide (uid = comment_author c))).
Qed.

(** X24.  A requester whom a guard turns away changes nothing and is
    redirected to the detail route of the post id of the URL: a requester
    who is not the author on the post edit and comment edit routes and on
    the comment delete route, one who is neither the author nor staff on
    the post delete route.  On the post routes and on the comment edit
    route that id is the post's own, or the one of the post the comment
    is attached to; on the comment delete route it is whatever id the
    URL holds. *)
Theorem unauthorized_mutation_redirects decl request uid u db :
  user request = AuthUser uid u →
  (∀ k p, posts db !! k = Some p → uid ≠ author p →
     serve decl (url_edit_post (Npos k)) request db
       = (redirect (blog_post_detail (Npos k)), db))
  ∧ (∀ k p, posts db !! k = Some p → uid ≠ author p → is_staff u = false →
     serve decl (url_delete_post (Npos k)) request db
       = (redirect (blog_post_detail (Npos k)), db))
  ∧ (∀ k c p, comments db !! k = Some c → posts db !! comment_post c = Some p →
     uid ≠ comment_author c →
     serve decl (url_edit_comment (Npos (comment_post c)) (Npos k)) request db
       = (redirect (blog_post_detail (Npos (comment_post c))), db))
  ∧ (∀ n k c, comments db !! k = Some c → uid ≠ comment_author c →
     serve decl (url_delete_comment n (Npos k)) request db
       = (redirect (blog_post_detail n), db)).
Proof.
  intros Huser. repeat split.
  - intros k p Hp Hne. rewrite (edit_post_run decl request uid u db k p Huser Hp).
    by rewrite bool_decide_eq_false_2.
  - intros k p Hp Hne Hstaff. rewrite (delete_post_run decl request uid u db k p Huser Hp).
    by rewrite bool_decide_eq_false_2, Hstaff.
  - intros k c p Hc Hp Hne.
    rewrite (edit_comment_run decl request uid u db _ p k c Huser Hp Hc).
    by rewrite bool_decide_eq_true_2, bool_decide_eq_false_2.
  - intros n k c Hc Hne.
    rewrite (delete_comment_run decl request uid u db n k c Huser Hc).
    by rewrite bool_decide_eq_false_2.
Qed.

Lemma unauthorized_mutation_redirects_witness :
  serve sample_decl (url_edit_post 1)
    (sample_submission (AuthUser 2 bob) [("title", "mine now"); ("text", "taken over")])
    sample_db
  = (redirect (blog_post_detail 1), sample_db).
Proof.
  refine (proj1 (unauthorized_mutation_redirects sample_decl
            (sample_submission (AuthUser 2 bob) [("title", "mine now"); ("text", "taken over")])
            2%positive bob sample_db eq_refl) 1%positive _ eq_refl _).
  vm_compute. discriminate.
Defined.

(** C3.  The code at the failing input.  Alice is not the author of
    comment 1, which is attached to post 1.  When she addresses its
    deletion under post 999, which does not exist, nothing is written,
    but she is redirected to the detail route of post 999 and not to the
    one of post 1, the post concerned.  The edit route, on the same
    comment and for the same requester, does redirect to post 1 under the
    right URL and answers 404 under post 999: it looks the post up and
    the comment on it, which [delete_comment] leaves out. *)
Theorem comment_delete_redirects_to_url_post :
  comments sample_db !! 1%positive = Some (mkComment "nice" 2 1 110)
  ∧ lookup_pk (posts sample_db) 999 = None
  ∧ serve sample_decl (url_delete_comment 999 1) (sample_request POST (AuthUser 1 alice))
      sample_db
    = (redirect (blog_post_detail 999), sample_db)
  ∧ serve sample_decl (url_edit_comment 1 1) (sample_request POST (AuthUser 1 alice))
      sample_db
    = (redirect (blog_post_detail 1), sample_db)
  ∧ serve sample_decl (url_edit_comment 999 1) (sample_request POST (AuthUser 1 alice))
      sample_db
    = (HttpResponseNotFound, sample_db).
Proof. repeat split; vm_compute; reflexivity. Qed.

(** C8, as amended.  [delete_comment] never compares the comment with the
    post its URL names: a POST by the author of an existing comment
    removes that comment, and nothing else, under any [post_id], and
    redirects to the detail route of that [post_id].  The edit route
    answers 404 whenever the [post_id] of the URL is not the post the
    comment is attached to and lies below [2^63]. *)
Theorem delete_comment_ignores_post decl request u db k c n :
  comments db !! k = Some c →
  user request = AuthUser (comment_author c) u →
  (method request = POST →
     ∃ db',
       serve decl (url_delete_comment n (Npos k)) request db
         = (redirect (blog_post_detail n), db')
       ∧ comments db' !! k = None
       ∧ (∀ k', k' ≠ k → comments db' !! k' = comments db !! k')
       ∧ users db' = users db ∧ categories db' = categories db ∧ posts db' = posts db)
  ∧ (n ≠ Npos (comment_post c) → (n < key_limit)%N →
     serve decl (url_edit_comment n (Npos k)) request db = (HttpResponseNotFound, db)).
Proof.
  intros Hc Huser. split.
  - intros Hmethod. eexists.
    rewrite (delete_comment_run decl request _ u db n k c Huser Hc).
    rewrite bool_decide_eq_true_2, decide_True by done. simpl.
    split; [reflexivity|]. simpl. split; [apply lookup_delete_eq|].
    split; [|done]. intros k' Hne. by apply lookup_delete_ne.
  - intros Hn Hlimit.
    destruct (lookup_pk (posts db) n) as [[kp p]|] eqn:Hp.
    + apply lookup_pk_inv in Hp as [-> Hp]. simpl in *.
      rewrite (edit_comment_run decl request _ u db kp p k c Huser Hp Hc).
      rewrite bool_decide_eq_false_2; [done|]. congruence.
    + unfold serve. simpl. unfold add_comment, login_required. rewrite Huser. simpl.
      unfold respond. unfold_view.
      by rewrite (get_object_or_404_pk_None posts n db Hp Hlimit).
Qed.

Lemma delete_comment_ignores_post_witness :
  (∃ db',
     serve sample_decl (url_delete_comment 3 1) (sample_request POST (AuthUser 2 bob))
       sample_db
     = (redirect (blog_post_detail 3), db')
     ∧ comments db' !! 1%positive = None
     ∧ (∀ k', k' ≠ 1%positive → comments db' !! k' = comments sample_db !! k')
     ∧ users db' = users sample_db ∧ categories db' = categories sample_db
     ∧ posts db' = posts sample_db)
  ∧ serve sample_decl (url_edit_comment 3 1) (sample_request POST (AuthUser 2 bob)) sample_db
    = (HttpResponseNotFound, sample_db).
Proof.
  pose proof (delete_comment_ignores_post sample_decl
                (sample_request POST (AuthUser 2 bob)) bob sample_db 1%positive _ 3%N
                eq_refl eq_refl) as [Hdelete Hedit].
  split; [exact (Hdelete eq_refl)|apply Hedit; vm_compute; [discriminate|reflexivity]].
Defined.

(** C8, as stated, fails on the edit route for a [post_id] of [2^63]: the
    comment is attached to another post, yet the answer is a server
    error and not a 404, the query for the post failing before any
    comparison. *)
Lemma edit_comment_oversized_post_id :
  comments sample_db !! 1%positive = Some (mkComment "nice" 2 1 110)
  ∧ serve sample_decl (url_edit_comment 9223372036854775808 1)
      (sample_request POST (AuthUser 2 bob)) sample_db
    = (HttpResponseServerError, sample_db).
Proof. split; vm_compute; reflexivity. Qed.

(** ** The detail page *)

(** What [post_detail] does with an existing post. *)
Lemma post_detail_run decl request db k p :
  posts db !! k = Some p →
  serve decl (url_post_detail (Npos k)) request db =
    if user_ne (user request) (author p) && negb (published_now db (clock request) p)
    then (HttpResponseNotFound, db)
    else (render "blog/detail.html"
            (ctx_detail (k, p) (mkForm None None None)
               (objects_filter (λ _ c, bool_decide (comment_post c = k)) (comments db))),
          db).
Proof.
  intros Hp. unfold serve, respond. simpl. unfold post_detail. unfold_view.
  rewrite (get_object_or_404_pk_Some posts k p db Hp). simpl.
  destruct (user_ne (user request) (author p)); simpl; [|done].
  rewrite (get_object_or_404_pk_Some posts k p db Hp). simpl.
  by destruct (published_now db (clock request) p).
Qed.

(** C7.  The detail page renders an existing post for its author whatever
    its publication state; for any other requester, the anonymous one
    included, a post that is unpublished, dated after the time of the
    request, or in an unpublished category yields a 404. *)
Theorem post_detail_author_or_public decl request db k p :
  posts db !! k = Some p →
  (∀ u, user request = AuthUser (author p) u →
     serve decl (url_post_detail (Npos k)) request db
       = (render "blog/detail.html"
            (ctx_detail (k, p) (mkForm None None None)
               (objects_filter (λ _ c, bool_decide (comment_post c = k)) (comments db))),
          db))
  ∧ ((∀ u, user request ≠ AuthUser (author p) u) →
     is_published p = false ∨ clock request < pub_date p ∨
       (∃ c cat, category p = Some c ∧ categories db !! c = Some cat ∧
                 category_is_published cat = false) →
     serve decl (url_post_detail (Npos k)) request db = (HttpResponseNotFound, db)).
Proof.
  intros Hp. rewrite (post_detail_run decl request db k p Hp). split.
  - intros u ->. simpl. by rewrite bool_decide_eq_true_2.
  - intros Hother Hhidden.
    assert (user_ne (user request) (author p) = true) as ->.
    { destruct (user request) as [|uid u]; [done|]. simpl.
      rewrite bool_decide_eq_false_2; [done|]. intros ->. by apply (Hother u). }
    assert (published_now db (clock request) p = false) as ->; [|done].
    unfold published_now, pub_date__lte, category__is_published.
    destruct Hhidden as [->|[Hdate|(c & cat & -> & -> & ->)]].
    + done.
    + rewrite bool_decide_eq_false_2 by lia. by rewrite andb_false_r.
    + by rewrite andb_false_r.
Qed.

Lemma post_detail_author_or_public_witness :
  (serve sample_decl (url_post_detail 2) (sample_request GET (AuthUser 1 alice)) sample_db).1
    = render "blog/detail.html"
        (ctx_detail
           (2%positive, mkPost "draft" "not yet" None 50 false 1%positive (Some 1%positive))
           (mkForm None None None) [])
  ∧ serve sample_decl (url_post_detail 2) (sample_request GET (AuthUser 2 bob)) sample_db
    = (HttpResponseNotFound, sample_db).
Proof.
  split.
  - rewrite (proj1 (post_detail_author_or_public sample_decl
               (sample_request GET (AuthUser 1 alice)) sample_db 2%positive _ eq_refl)
               alice eq_refl).
    vm_compute. reflexivity.
  - apply (proj2 (post_detail_author_or_public sample_decl
               (sample_request GET (AuthUser 2 bob)) sample_db 2%positive _ eq_refl)).
    + intros u. vm_compute. discriminate.
    + left. reflexivity.
Defined.

(** ** Records that do not exist *)

(** C5, as amended.  A request that reaches a lookup of its handler for a
    record that does not exist, under an id below [2^63], a slug or a
    username, is answered 404 and changes nothing: the post on the detail
    route; for a GET or HEAD request, the category or the user of a feed;
    and, for an authenticated requester, the post on the post delete,
    comment add and comment edit routes and on the post edit route under
    a non-zero id, the comment on the comment delete route and on the
    comment edit route under a non-zero id. *)
Theorem missing_record_404 decl request db :
  (∀ n, lookup_pk (posts db) n = None → (n < key_limit)%N →
     serve decl (url_post_detail n) request db = (HttpResponseNotFound, db))
  ∧ (method request = GET ∨ method request = HEAD →
       (∀ s, (∀ k c, categories db !! k = Some c → slug c ≠ s) →
          serve decl (url_category_posts s) request db = (HttpResponseNotFound, db))
     ∧ (∀ name, (∀ k u, users db !! k = Some u → username u ≠ name) →
          serve decl (url_profile name) request db = (HttpResponseNotFound, db)))
  ∧ (is_authenticated (user request) = true →
       (∀ n, lookup_pk (posts db) n = None → (n < key_limit)%N →
          (n ≠ 0%N →
             serve decl (url_edit_post n) request db = (HttpResponseNotFound, db))
        ∧ serve decl (url_delete_post n) request db = (HttpResponseNotFound, db)
        ∧ serve decl (url_add_comment n) request db = (HttpResponseNotFound, db)
        ∧ (∀ c, serve decl (url_edit_comment n c) request db = (HttpResponseNotFound, db)))
     ∧ (∀ c, lookup_pk (comments db) c = None → (c < key_limit)%N →
          (∀ n, c ≠ 0%N → (n < key_limit)%N →
             serve decl (url_edit_comment n c) request db = (HttpResponseNotFound, db))
        ∧ (∀ n, serve decl (url_delete_comment n c) request db
                  = (HttpResponseNotFound, db)))).
Proof.
  split; [|split].
  - intros n Hn Hlimit. unfold serve, respond. simpl. unfold post_detail. unfold_view.
    by rewrite (get_object_or_404_pk_None posts n db Hn Hlimit).
  - intros Hmethod. split.
    + intros s Hs. unfold serve, respond. simpl.
      unfold CategoryListView.as_view, ListView_dispatch, ListView_get,
        CategoryListView.get_queryset, CategoryListView.get_category.
      assert (get_object_or_404_by categories (λ _ c, bool_decide (slug c = s)) db
              = (Raise Http404, db)) as Hraise.
      { apply get_object_or_404_by_None. intros k c Hc.
        apply bool_decide_eq_false_2. by eapply Hs. }
      destruct Hmethod as [-> | ->]; unfold_view; by rewrite Hraise.
    + intros name Hname. unfold serve, respond. simpl.
      unfold ProfileListView.as_view, ListView_dispatch, ListView_get,
        ProfileListView.get_queryset, ProfileListView.get_profile.
      assert (get_object_or_404_by users (λ _ u, bool_decide (username u = name)) db
              = (Raise Http404, db)) as Hraise.
      { apply get_object_or_404_by_None. intros k u Hu.
        apply bool_decide_eq_false_2. by eapply Hname. }
      destruct Hmethod as [-> | ->]; unfold_view; by rewrite Hraise.
  - intros Hauth. split.
    + intros n Hn Hlimit. repeat split.
      * intros Hnz. unfold serve, respond. simpl. unfold create_post, login_required.
        rewrite Hauth. unfold int_truthy.
        rewrite (proj2 (N.eqb_neq n 0) Hnz). unfold_view.
        by rewrite (get_object_or_404_pk_None posts n db Hn Hlimit).
      * unfold serve, respond. simpl. unfold delete_post, login_required.
        rewrite Hauth. unfold_view.
        by rewrite (get_object_or_404_pk_None posts n db Hn Hlimit).
      * unfold serve, respond. simpl. unfold add_comment, login_required.
        rewrite Hauth. unfold_view.
        by rewrite (get_object_or_404_pk_None posts n db Hn Hlimit).
      * intros c. unfold serve, respond. simpl. unfold add_comment, login_required.
        rewrite Hauth. unfold_view.
        by rewrite (get_object_or_404_pk_None posts n db Hn Hlimit).
    + intros c Hc Hlimit. split.
      * intros n Hnz Hn. unfold serve, respond. simpl. unfold add_comment, login_required.
        rewrite Hauth. unfold int_truthy.
        rewrite (proj2 (N.eqb_neq c 0) Hnz). unfold_view.
        destruct (get_object_or_404_pk posts n db) as [[post|e] db1] eqn:Hpost.
        -- apply (readonly_Done _ _ _ _ (readonly_get_object_or_404_pk posts n)) in Hpost
             as ->.
           by rewrite (get_object_or_404_pk_None comments c db Hc Hlimit).
        -- apply get_object_or_404_pk_Raise in Hpost as (-> & _ & [[-> _]|[_ Hbig]]);
             [done|lia].
      * intros n. unfold serve, respond. simpl. unfold delete_comment, login_required.
        rewrite Hauth. unfold_view.
        by rewrite (get_object_or_404_pk_None comments c db Hc Hlimit).
Qed.

(** C5, as stated, fails behind the login gate: an anonymous request to
    delete a post that does not exist is sent to the login page, the gate
    standing in front of the lookup. *)
Lemma anonymous_missing_post_login :
  lookup_pk (posts sample_db) 77 = None
  ∧ serve sample_decl (url_delete_post 77) (sample_request POST AnonymousUser) sample_db
    = (redirect (login_page "/auth/login/" "/here/"), sample_db).
Proof. split; vm_compute; reflexivity. Qed.

(** The id zero on the edit routes is taken for no id at all: the request
    is handled as a creation. *)
Lemma edit_post_zero_creates :
  lookup_pk (posts sample_db) 0 = None
  ∧ (let '(r, db') :=
       serve sample_decl (url_edit_post 0)
         (sample_submission (AuthUser 2 bob) [("title", "new"); ("text", "post")]) sample_db in
     r = redirect (blog_profile "bob") ∧ posts sample_db !! 5%positive = None
     ∧ is_Some (posts db' !! 5%positive)).
Proof. split; [done|]. vm_compute. repeat split. by eexists. Qed.

(** ** Invalid submissions *)

(** A bound form that is not valid holds at least one message. *)
Lemma invalid_bound_form_has_errors {I} (cls : ModelForm I) db (f : Form I) :
  is_bound f = true → is_valid cls db f = false → form_errors cls db f ≠ [].
Proof.
  unfold is_valid. intros -> Hvalid. simpl in Hvalid.
  by apply bool_decide_eq_false in Hvalid.
Qed.

(** On a POST the forms are given the submitted fields as they are. *)
Lemma request_POST_body request :
  method request = POST → request_POST request = body_fields request.
Proof. intros Hm. unfold request_POST. by rewrite decide_True. Qed.

Lemma create_post_run decl request uid u db :
  user request = AuthUser uid u →
  serve decl url_create_post request db = respond (create_post_form decl request None) db.
Proof.
  intros Huser. unfold serve. simpl. unfold create_post, login_required.
  by rewrite Huser.
Qed.

Lemma add_comment_run decl request uid u db k p :
  user request = AuthUser uid u →
  posts db !! k = Some p →
  serve decl (url_add_comment (Npos k)) request db
    = respond (add_comment_form decl request (k, p) None) db.
Proof.
  intros Huser Hp. unfold serve. simpl. unfold add_comment, login_required.
  rewrite Huser. simpl. unfold respond. unfold_view.
  by rewrite (get_object_or_404_pk_Some posts k p db Hp).
Qed.

Lemma edit_profile_run decl request uid u db :
  user request = AuthUser uid u →
  let form := profile_form request (uid, u) in
  serve decl url_edit_profile request db =
    if decide (method request = POST) then
      if is_valid (ProfileEditForm decl) db form
      then (redirect_response
              (blog_profile (username (form_save_no_commit (ProfileEditForm decl) form))),
            set_users (λ t, save_row t (Some uid)
                              (form_save_no_commit (ProfileEditForm decl) form)) db)
      else (render "blog/user.html" (ctx_profile_form form), db)
    else (render "blog/user.html" (ctx_profile_form (mkForm None None (Some (uid, u)))), db).
Proof.
  intros Huser form. subst form. unfold serve, respond. simpl.
  unfold edit_profile, login_required, profile_form. rewrite Huser. unfold_view.
  destruct (decide (method request = POST)); [|done].
  destruct (is_valid (ProfileEditForm decl) db _); [|done].
  unfold redirect_response. simpl. by destruct (str_converter_matches _).
Qed.

(** On a POST, the post form is bound when the submission holds a field
    or a file, the comment form when it holds a field. *)
Lemma post_form_bound request instance :
  method request = POST →
  is_bound (post_form request instance) = true
  ↔ body_fields request ≠ [] ∨ body_files request ≠ [].
Proof.
  intros Hm. unfold is_bound, post_form, request_POST, request_FILES. simpl.
  rewrite !decide_True by done.
  destruct (body_fields request), (body_files request); simpl; split; try done;
    (intros _; (by left) || (by right)) || (by intros [[]|[]]).
Qed.

Lemma comment_form_bound request comment :
  method request = POST →
  is_bound (comment_form request comment) = true ↔ body_fields request ≠ [].
Proof.
  intros Hm. unfold is_bound, comment_form, request_POST. simpl.
  rewrite !decide_True by done.
  destruct (body_fields request); simpl; split; done.
Qed.

(** The messages of a form that is not valid: none when it is unbound, at
    least one when it is bound. *)
Lemma invalid_form_errors {I} (cls : ModelForm I) db (f : Form I) :
  is_valid cls db f = false →
  form_errors cls db f ≠ [] ↔ is_bound f = true.
Proof.
  intros Hvalid. split.
  - unfold form_errors. by destruct (is_bound f).
  - intros Hbound. by apply invalid_bound_form_has_errors.
Qed.

(** C6, as amended.  When an authenticated requester who may use the form
    POSTs a submission that the form does not accept, the database is
    left as it was and the response renders the template of the form page
    with the very form that was checked.  That form holds validation
    messages exactly when it was bound to the submission: always for the
    profile form, for the post form when the submission holds a field or
    a file, for the comment form when it holds a field.  This holds for
    creating and editing a post, adding and editing a comment, and
    editing the profile. *)
Theorem invalid_submission_rerenders decl request uid u db :
  user request = AuthUser uid u →
  method request = POST →
  (is_valid (PostForm decl) db (post_form request None) = false →
     serve decl url_create_post request db
       = (render "blog/create.html" (ctx_post_form (post_form request None)), db))
  ∧ (∀ k p, posts db !! k = Some p → uid = author p →
     is_valid (PostForm decl) db (post_form request (Some (k, p))) = false →
     serve decl (url_edit_post (Npos k)) request db
       = (render "blog/create.html" (ctx_post_form (post_form request (Some (k, p)))), db))
  ∧ (∀ k p, posts db !! k = Some p →
     is_valid (CommentForm decl) db (comment_form request None) = false →
     serve decl (url_add_comment (Npos k)) request db
       = (render "blog/comment.html" (ctx_comment_form (comment_form request None) (k, p)),
          db))
  ∧ (∀ k c p, comments db !! k = Some c → posts db !! comment_post c = Some p →
     uid = comment_author c →
     is_valid (CommentForm decl) db (comment_form request (Some (k, c))) = false →
     serve decl (url_edit_comment (Npos (comment_post c)) (Npos k)) request db
       = (render "blog/comment.html"
            (ctx_comment_form (comment_form request (Some (k, c))) (comment_post c, p)),
          db))
  ∧ (is_valid (ProfileEditForm decl) db (profile_form request (uid, u)) = false →
     serve decl url_edit_profile request db
       = (render "blog/user.html" (ctx_profile_form (profile_form request (uid, u))), db)
       ∧ form_errors (ProfileEditForm decl) db (profile_form request (uid, u)) ≠ [])
  ∧ (∀ instance, is_valid (PostForm decl) db (post_form request instance) = false →
       form_errors (PostForm decl) db (post_form request instance) ≠ []
       ↔ body_fields request ≠ [] ∨ body_files request ≠ [])
  ∧ (∀ comment, is_valid (CommentForm decl) db (comment_form request comment) = false →
       form_errors (CommentForm decl) db (comment_form request comment) ≠ []
       ↔ body_fields request ≠ []).
Proof.
  intros Huser Hmethod.
  split; [|split; [|split; [|split; [|split; [intros Hinvalid; split|split]]]]].
  - intros Hinvalid. rewrite (create_post_run decl request uid u db Huser).
    rewrite (create_post_form_run decl request uid u db None Huser). by rewrite Hinvalid.
  - intros k p Hp Hauthor Hinvalid.
    rewrite (edit_post_run decl request uid u db k p Huser Hp).
    rewrite bool_decide_eq_true_2 by done. simpl.
    rewrite (create_post_form_run decl request uid u db _ Huser). by rewrite Hinvalid.
  - intros k p Hp Hinvalid.
    rewrite (add_comment_run decl request uid u db k p Huser Hp).
    rewrite (add_comment_form_run decl request uid u db _ _ Huser).
    by rewrite decide_True, Hinvalid.
  - intros k c p Hc Hp Hauthor Hinvalid.
    rewrite (edit_comment_run decl request uid u db _ p k c Huser Hp Hc).
    rewrite !bool_decide_eq_true_2 by done. simpl.
    rewrite (add_comment_form_run decl request uid u db _ _ Huser).
    by rewrite decide_True, Hinvalid.
  - rewrite (edit_profile_run decl request uid u db Huser).
    by rewrite decide_True, Hinvalid.
  - by apply invalid_bound_form_has_errors.
  - intros instance Hinvalid.
    by rewrite (invalid_form_errors _ _ _ Hinvalid), (post_form_bound _ _ Hmethod).
  - intros comment Hinvalid.
    by rewrite (invalid_form_errors _ _ _ Hinvalid), (comment_form_bound _ _ Hmethod).
Qed.

Lemma invalid_submission_rerenders_witness :
  serve sample_decl url_create_post
    (sample_submission (AuthUser 2 bob) [("title", "no text")]) sample_db
  = (render "blog/create.html"
       (ctx_post_form (mkForm (Some [("title", "no text")]) None None)), sample_db)
  ∧ form_errors sample_PostForm sample_db
      (mkForm (Some [("title", "no text")]) None None) = ["text: this field is required"].
Proof.
  split.
  - exact (proj1 (invalid_submission_rerenders sample_decl
             (sample_submission (AuthUser 2 bob) [("title", "no text")])
             2%positive bob sample_db eq_refl eq_refl) eq_refl).
  - reflexivity.
Defined.

(** C6, as stated, fails on a POST without any field: the post form is
    then built from [None], is unbound and not valid, and the page is
    rendered again with a form that holds no message, although checking
    the empty submission would report the fields that are required. *)
Lemma empty_submission_shows_no_message :
  serve sample_decl url_create_post (sample_submission (AuthUser 2 bob) []) sample_db
    = (render "blog/create.html" (ctx_post_form (mkForm None None None)), sample_db)
  ∧ is_valid sample_PostForm sample_db
      (post_form (sample_submission (AuthUser 2 bob) []) None) = false
  ∧ form_errors sample_PostForm sample_db (mkForm None None None) = []
  ∧ clean_errors sample_PostForm sample_db [] [] None
    = ["title: this field is required"; "text: this field is required"].
Proof. repeat split; vm_compute; reflexivity. Qed.

(** The template an invalid submission is answered with is the one a GET
    of the same route renders. *)
Lemma form_page_on_get decl request uid u db :
  user request = AuthUser uid u →
  method request = GET →
  serve decl url_create_post request db
    = (render "blog/create.html" (ctx_post_form (mkForm None None None)), db)
  ∧ (∀ k p, posts db !! k = Some p → uid = author p →
     serve decl (url_edit_post (Npos k)) request db
       = (render "blog/create.html" (ctx_post_form (mkForm None None (Some (k, p)))), db))
  ∧ (∀ k p, posts db !! k = Some p →
     serve decl (url_add_comment (Npos k)) request db
       = (render "blog/comment.html" (ctx_comment_form (mkForm None None None) (k, p)), db))
  ∧ (∀ k c p, comments db !! k = Some c → posts db !! comment_post c = Some p →
     uid = comment_author c →
     serve decl (url_edit_comment (Npos (comment_post c)) (Npos k)) request db
       = (render "blog/comment.html"
            (ctx_comment_form (mkForm None None (Some (k, c))) (comment_post c, p)), db))
  ∧ serve decl url_edit_profile request db
    = (render "blog/user.html" (ctx_profile_form (mkForm None None (Some (uid, u)))), db).
Proof.
  intros Huser Hmethod.
  assert (∀ (I : Type) cls (inst : option (pk * I)), is_valid cls db (mkForm None None inst) = false)
    as Hunbound by done.
  assert (post_form request = mkForm None None) as Hpf.
  { unfold post_form, request_POST, request_FILES. rewrite Hmethod. done. }
  assert (comment_form request = mkForm None None) as Hcf.
  { unfold comment_form, request_POST. rewrite Hmethod. done. }
  repeat split.
  - rewrite (create_post_run decl request uid u db Huser).
    rewrite (create_post_form_run decl request uid u db None Huser).
    by rewrite Hpf, Hunbound.
  - intros k p Hp Hauthor.
    rewrite (edit_post_run decl request uid u db k p Huser Hp).
    rewrite bool_decide_eq_true_2 by done. simpl.
    rewrite (create_post_form_run decl request uid u db _ Huser).
    by rewrite Hpf, Hunbound.
  - intros k p Hp.
    rewrite (add_comment_run decl request uid u db k p Huser Hp).
    rewrite (add_comment_form_run decl request uid u db _ _ Huser).
    rewrite Hmethod, Hcf. done.
  - intros k c p Hc Hp Hauthor.
    rewrite (edit_comment_run decl request uid u db _ p k c Huser Hp Hc).
    rewrite !bool_decide_eq_true_2 by done. simpl.
    rewrite (add_comment_form_run decl request uid u db _ _ Huser).
    rewrite Hmethod, Hcf. done.
  - rewrite (edit_profile_run decl request uid u db Huser). by rewrite Hmethod.
Qed.

(** ** Writes *)

(** The routes that are not mutating never write. *)
Lemma nonmutating_readonly decl route request :
  mutating route = false → readonly (urlpatterns decl route request).
Proof.
  destruct route; try discriminate; intros _; simpl.
  - unfold HomePage.as_view, ListView_dispatch, ListView_get, HomePage.get_queryset,
      HomePage.get_context_data.
    destruct (method request); auto 10 with readonly.
  - unfold CategoryListView.as_view, ListView_dispatch, ListView_get,
      CategoryListView.get_queryset, CategoryListView.get_context_data,
      CategoryListView.get_category.
    destruct (method request); auto 12 with readonly.
  - unfold ProfileListView.as_view, ListView_dispatch, ListView_get,
      ProfileListView.get_queryset, ProfileListView.get_context_data,
      ProfileListView.get_profile.
    destruct (method request); auto 12 with readonly.
  - unfold post_detail. auto 12 with readonly.
Qed.

(** Whatever the route, a response that is neither a redirect nor a
    server error comes with the database unchanged: every write of a
    handler is followed by a call of [redirect], which answers with the
    redirect or fails. *)
Lemma write_then_redirect decl route request db :
  (serve decl route request db).2 = db
  ∨ (∃ to, (serve decl route request db).1 = redirect to)
  ∨ (serve decl route request db).1 = HttpResponseServerError.
Proof.
  destruct (mutating route) eqn:Hroute.
  - unfold serve, respond.
    destruct route; try discriminate Hroute; simpl;
      unfold edit_profile, create_post, delete_post, add_comment, delete_comment,
        create_post_form, add_comment_form, login_required, get_object_or_404_pk,
        as_user_row;
      unfold_view;
      repeat (case_match; simplify_eq; simpl in * );
      eauto.
  - left. unfold serve, respond.
    pose proof (nonmutating_readonly decl route request Hroute db) as Hro.
    destruct (urlpatterns decl route request db) as [[r|[]] db']; by simpl in *.
Qed.

(** ** One request, at most one write *)

(** A form is only valid when it is bound, and the forms built from
    [request.POST or None] are only bound on a POST. *)
Lemma is_valid_bound {I} (cls : ModelForm I) db (f : Form I) :
  is_valid cls db f = true → is_bound f = true.
Proof. unfold is_valid. by intros [? _]%andb_true_iff. Qed.

Lemma post_form_bound_POST request instance :
  is_bound (post_form request instance) = true → method request = POST.
Proof.
  unfold is_bound, post_form, request_POST, request_FILES. simpl.
  destruct (decide (method request = POST)); [done|]. simpl. done.
Qed.

(** The write of the form step of [create_post]. *)
Lemma create_post_form_write decl request uid u db instance :
  user request = AuthUser uid u →
  (∀ k p, instance = Some (k, p) → posts db !! k = Some p ∧ author p = uid) →
  ∃ w, (respond (create_post_form decl request instance) db).2 = perform decl w db
    ∧ (w = no_write ∨ method request = POST ∧ guarded uid u db w).
Proof.
  intros Huser Hinst. rewrite (create_post_form_run decl request uid u db instance Huser).
  destruct (is_valid (PostForm decl) db (post_form request instance)) eqn:Hvalid.
  - apply is_valid_bound, post_form_bound_POST in Hvalid.
    destruct instance as [[k p]|]; simpl.
    + destruct (Hinst k p eq_refl) as [Hp Ha].
      eexists (update_post k _). split; [done|]. right. split; [done|]. by exists p.
    + eexists (insert_post _). split; [done|]. right. done.
  - exists no_write. split; [done|by left].
Qed.

(** The write of the form step of [add_comment]. *)
Lemma add_comment_form_write decl request uid u db kp p comment :
  user request = AuthUser uid u →
  posts db !! kp = Some p →
  (∀ k c, comment = Some (k, c) →
     comments db !! k = Some c ∧ comment_author c = uid ∧ comment_post c = kp) →
  ∃ w, (respond (add_comment_form decl request (kp, p) comment) db).2 = perform decl w db
    ∧ (w = no_write ∨ method request = POST ∧ guarded uid u db w).
Proof.
  intros Huser Hp Hinst.
  rewrite (add_comment_form_run decl request uid u db (kp, p) comment Huser).
  destruct (decide (method request = POST)) as [Hm|]; [|by exists no_write; split; [|left]].
  destruct (is_valid (CommentForm decl) db (comment_form request comment)).
  - destruct comment as [[k c]|]; simpl.
    + destruct (Hinst k c eq_refl) as (Hc & Ha & Hpost).
      eexists (update_comment k _). split; [done|]. right. split; [done|]. by exists c.
    + eexists (insert_comment _). split; [done|]. right. split; [done|]. simpl. eauto.
  - exists no_write. split; [done|by left].
Qed.

(** Every request either leaves the database alone or is a POST by an
    authenticated requester that issues one write its guard allows. *)
Lemma serve_write decl route request db :
  ∃ w, (serve decl route request db).2 = perform decl w db
    ∧ (w = no_write
       ∨ method request = POST
         ∧ ∃ uid u, user request = AuthUser uid u ∧ guarded uid u db w).
Proof.
  assert (∃ w, db = perform decl w db
    ∧ (w = no_write
       ∨ method request = POST
         ∧ ∃ uid u, user request = AuthUser uid u ∧ guarded uid u db w)) as Hsame.
  { exists no_write. split; [done|by left]. }
  assert (∀ uid u db', user request = AuthUser uid u →
    (∃ w, db' = perform decl w db
       ∧ (w = no_write ∨ method request = POST ∧ guarded uid u db w)) →
    ∃ w, db' = perform decl w db
    ∧ (w = no_write
       ∨ method request = POST
         ∧ ∃ uid u, user request = AuthUser uid u ∧ guarded uid u db w)) as Hlift.
  { intros uid u db' Huser (w & Hw & Hcase). exists w. split; [done|].
    destruct Hcase as [->|[Hm Hg]]; [by left|right; eauto]. }
  destruct (mutating route) eqn:Hroute.
  2:{ unfold serve, respond.
      pose proof (nonmutating_readonly decl route request Hroute db) as Hro.
      destruct (urlpatterns decl route request db) as [[r|[]] db']; simpl in *; subst;
        (simpl; apply Hsame). }
  destruct (user request) as [|uid u] eqn:Huser.
  { destruct route; try discriminate Hroute; unfold serve, respond; simpl;
      unfold edit_profile, create_post, delete_post, add_comment, delete_comment,
        login_required; rewrite Huser; (simpl; apply Hsame). }
  destruct route as [| | | | | |n|n|n|n c|n c]; try discriminate Hroute.
  - (* edit_profile *)
    rewrite (edit_profile_run decl request uid u db Huser).
    destruct (decide (method request = POST)) as [Hm|]; [|(simpl; apply Hsame)].
    destruct (is_valid _ _ _); [|(simpl; apply Hsame)].
    eexists (save_profile uid _). split; [done|]. right. split; [done|]. by exists uid, u.
  - (* create_post *)
    rewrite (create_post_run decl request uid u db Huser).
    apply (Hlift uid u _ eq_refl), create_post_form_write; done.
  - (* edit_post *)
    destruct n as [|k].
    { change (serve decl (url_edit_post 0) request db)
        with (respond (login_required "/auth/login/"
                (λ request, create_post_form decl request None) request) db).
      unfold login_required. rewrite Huser. simpl.
      apply (Hlift uid u _ eq_refl), create_post_form_write; done. }
    destruct (posts db !! k) as [p|] eqn:Hp.
    + rewrite (edit_post_run decl request uid u db k p Huser Hp).
      case_bool_decide as Ha; simpl; [|(simpl; apply Hsame)].
      apply (Hlift uid u _ eq_refl), create_post_form_write; [done|].
      by intros ?? [= <- <-].
    + unfold serve, respond. simpl. unfold create_post, login_required.
      rewrite Huser. unfold_view. unfold get_object_or_404_pk. simpl. rewrite Hp.
      destruct (bool_decide _); simpl; apply Hsame.
  - (* delete_post *)
    destruct n as [|k];
      [unfold serve, respond; simpl; unfold delete_post, login_required;
       rewrite Huser; (simpl; apply Hsame)|].
    destruct (posts db !! k) as [p|] eqn:Hp.
    + rewrite (delete_post_run decl request uid u db k p Huser Hp).
      case_bool_decide as Ha; destruct (is_staff u) eqn:Hstaff; simpl; try (simpl; apply Hsame).
      all: destruct (decide (method request = POST)) as [Hm|]; [|(simpl; apply Hsame)].
      all: exists (remove_post k); (split; [done|]); right; (split; [done|]).
      all: exists uid, u; (split; [done|]); exists p; eauto.
    + unfold serve, respond. simpl. unfold delete_post, login_required.
      rewrite Huser. unfold_view. unfold get_object_or_404_pk. simpl. rewrite Hp.
      destruct (bool_decide _); simpl; apply Hsame.
  - (* add_comment *)
    destruct n as [|k];
      [unfold serve, respond; simpl; unfold add_comment, login_required;
       rewrite Huser; (simpl; apply Hsame)|].
    destruct (posts db !! k) as [p|] eqn:Hp.
    + rewrite (add_comment_run decl request uid u db k p Huser Hp).
      apply (Hlift uid u _ eq_refl), add_comment_form_write; done.
    + unfold serve, respond. simpl. unfold add_comment, login_required.
      rewrite Huser. unfold_view. unfold get_object_or_404_pk. simpl. rewrite Hp.
      destruct (bool_decide _); simpl; apply Hsame.
  - (* edit_comment *)
    destruct n as [|k];
      [unfold serve, respond; simpl; unfold add_comment, login_required;
       rewrite Huser; (simpl; apply Hsame)|].
    destruct (posts db !! k) as [p|] eqn:Hp.
    2:{ unfold serve, respond. simpl. unfold add_comment, login_required.
        rewrite Huser. unfold_view. unfold get_object_or_404_pk. simpl. rewrite Hp.
      destruct (bool_decide _); simpl; apply Hsame. }
    destruct c as [|kc].
    { replace (serve decl (url_edit_comment (N.pos k) 0) request db)
        with (serve decl (url_add_comment (N.pos k)) request db) by done.
      rewrite (add_comment_run decl request uid u db k p Huser Hp).
      apply (Hlift uid u _ eq_refl), add_comment_form_write; done. }
    destruct (comments db !! kc) as [c|] eqn:Hc.
    + rewrite (edit_comment_run decl request uid u db k p kc c Huser Hp Hc).
      case_bool_decide as Hpost; [|(simpl; apply Hsame)].
      case_bool_decide as Ha; simpl; [|(simpl; apply Hsame)].
      apply (Hlift uid u _ eq_refl), add_comment_form_write; [done..|].
      by intros ?? [= <- <-].
    + unfold serve, respond. simpl. unfold add_comment, login_required.
      rewrite Huser. unfold_view.
      rewrite (get_object_or_404_pk_Some posts k p db Hp). simpl.
      unfold get_object_or_404_pk. simpl. rewrite Hc.
      destruct (bool_decide _); simpl; apply Hsame.
  - (* delete_comment *)
    destruct c as [|kc];
      [unfold serve, respond; simpl; unfold delete_comment, login_required;
       rewrite Huser; (simpl; apply Hsame)|].
    destruct (comments db !! kc) as [c|] eqn:Hc.
    + rewrite (delete_comment_run decl request uid u db n kc c Huser Hc).
      case_bool_decide as Ha; simpl; [|(simpl; apply Hsame)].
      destruct (decide (method request = POST)) as [Hm|]; [|(simpl; apply Hsame)].
      exists (remove_comment kc). split; [done|]. right. split; [done|].
      exists uid, u. split; [done|]. by exists c.
    + unfold serve, respond. simpl. unfold delete_comment, login_required.
      rewrite Huser. unfold_view. unfold get_object_or_404_pk. simpl. rewrite Hc.
      destruct (bool_decide _); simpl; apply Hsame.
Qed.

Lemma fresh_key_free {A} (t : gmap positive A) : t !! fresh (dom t) = None.
Proof. apply not_elem_of_dom, is_fresh. Qed.

Lemma save_row_new_other {A} (t : gmap positive A) row k a :
  t !! k = Some a → save_row t None row !! k = Some a.
Proof.
  intros Hk. unfold save_row. rewrite lookup_insert_ne; [done|].
  intros <-. by rewrite fresh_key_free in Hk.
Qed.

Lemma sample_on_delete_removes : on_delete_removes sample_decl.
Proof.
  intros kp t k c Hc. simpl in Hc. by apply map_lookup_filter_Some in Hc.
Qed.

(** ** Who writes what *)

(** X1.  The database changes only on a POST, by an authenticated
    requester, to one of the mutating routes, and the response to a
    request that changed it is a redirect, or a server error when the
    handler could not build the path to redirect to after its write: no
    GET, no anonymous request and no response that renders a page or
    reports a 404 comes with a write. *)
Theorem write_needs_login_and_POST decl route request db :
  (serve decl route request db).2 ≠ db →
  method request = POST
  ∧ is_authenticated (user request) = true
  ∧ mutating route = true
  ∧ ((∃ to, (serve decl route request db).1 = redirect to)
     ∨ (serve decl route request db).1 = HttpResponseServerError).
Proof.
  intros Hchange.
  destruct (serve_write decl route request db) as (w & Hw & [->|(Hm & uid & u & Hu & _)]);
    [done|].
  split; [done|]. split; [by rewrite Hu|]. split.
  - destruct (mutating route) eqn:Hroute; [done|]. exfalso. apply Hchange.
    unfold serve, respond.
    pose proof (nonmutating_readonly decl route request Hroute db) as Hro.
    destruct (urlpatterns decl route request db) as [[r|[]] db']; by simpl in *.
  - by destruct (write_then_redirect decl route request db) as [|[|]]; [|left|right].
Qed.

Lemma write_needs_login_and_POST_witness :
  method (sample_request POST (AuthUser 2 bob)) = POST
  ∧ (serve sample_decl (url_delete_comment 1 1) (sample_request POST (AuthUser 2 bob))
       sample_db).1 = redirect (blog_post_detail 1).
Proof.
  assert ((serve sample_decl (url_delete_comment 1 1) (sample_request POST (AuthUser 2 bob))
             sample_db).2 ≠ sample_db) as Hchange.
  { intros Heq. apply (f_equal (λ d, comments d !! 1%positive)) in Heq.
    vm_compute in Heq. discriminate Heq. }
  destruct (write_needs_login_and_POST _ _ _ _ Hchange) as (Hm & _ & _ & _).
  split; [exact Hm|]. vm_compute. reflexivity.
Defined.

(** X2.  No route ever changes the category table, and a row of the user
    table changes only on a request of that very user. *)
Theorem categories_and_other_users_untouched decl route request db :
  categories (serve decl route request db).2 = categories db
  ∧ ∀ k, users (serve decl route request db).2 !! k = users db !! k
         ∨ ∃ u, user request = AuthUser k u.
Proof.
  destruct (serve_write decl route request db) as (w & -> & Hw). split.
  - by destruct w.
  - intros k. destruct Hw as [->|(_ & uid & u & Hu & Hg)]; [by left|].
    destruct w; simpl in *; try by left.
    destruct (decide (k0 = k)) as [<-|Hne].
    + right. subst. eauto.
    + left. by rewrite lookup_insert_ne.
Qed.

(** X3.  A stored post is changed or removed only on a request of its
    author, except that a staff user can remove it; whatever the request,
    every other post stays exactly as it was. *)
Theorem post_changed_only_by_author_or_staff decl route request db k p :
  posts db !! k = Some p →
  posts (serve decl route request db).2 !! k = Some p
  ∨ (∃ u, user request = AuthUser (author p) u)
  ∨ (∃ uid u, user request = AuthUser uid u ∧ is_staff u = true
              ∧ posts (serve decl route request db).2 !! k = None).
Proof.
  intros Hp.
  destruct (serve_write decl route request db) as (w & -> & Hw).
  destruct Hw as [->|(_ & uid & u & Hu & Hg)]; [by left|].
  destruct w as [|? ?|row|k' row|k'|row|k' row|k']; simpl in *; try by left.
  - left. by apply save_row_new_other.
  - destruct (decide (k' = k)) as [->|Hne].
    + destruct Hg as (p' & Hp' & Ha & _). right. left. exists u. congruence.
    + left. by rewrite lookup_insert_ne.
  - destruct (decide (k' = k)) as [->|Hne].
    + destruct Hg as (p' & Hp' & [Ha|Hs]).
      * right. left. exists u. congruence.
      * right. right. exists uid, u. by rewrite lookup_delete_eq.
    + left. by rewrite lookup_delete_ne.
Qed.

Lemma post_changed_only_by_author_or_staff_witness :
  posts (serve sample_decl (url_edit_post 1)
           (sample_submission (AuthUser 2 bob) [("title", "x"); ("text", "y")])
           sample_db).2 !! 1%positive
  = posts sample_db !! 1%positive.
Proof.
  destruct (post_changed_only_by_author_or_staff sample_decl (url_edit_post 1)
              (sample_submission (AuthUser 2 bob) [("title", "x"); ("text", "y")])
              sample_db 1%positive _ eq_refl) as [Hsame|[[u Hu]|(uid & u & Hu & Hs & _)]].
  - rewrite Hsame. reflexivity.
  - vm_compute in Hu. discriminate Hu.
  - vm_compute in Hu. injection Hu as <- <-. vm_compute in Hs. discriminate Hs.
Defined.

(** X4.  The author of a post never changes: a post that is there before
    and after a request has the same author, and a post that a request
    creates has the requester as its author, whatever the submitted
    fields say. *)
Theorem post_author_fixed decl route request db k p' :
  posts (serve decl route request db).2 !! k = Some p' →
  match posts db !! k with
  | Some p => author p' = author p
  | None => ∃ u, user request = AuthUser (author p') u
  end.
Proof.
  destruct (serve_write decl route request db) as (w & -> & Hw).
  intros Hp'.
  assert (posts db !! k = Some p' →
    match posts db !! k with
    | Some p => author p' = author p
    | None => ∃ u, user request = AuthUser (author p') u
    end) as Hsame by (by intros ->).
  destruct Hw as [->|(_ & uid & u & Hu & Hg)]; [by apply Hsame|].
  destruct w as [|? ?|row|k' row|k'|row|k' row|k']; simpl in *; try by apply Hsame.
  - destruct (decide (fresh (dom (posts db)) = k)) as [<-|Hne].
    + rewrite lookup_insert_eq in Hp'. injection Hp' as <-.
      rewrite fresh_key_free. exists u. by rewrite Hg.
    + rewrite lookup_insert_ne in Hp' by done. by apply Hsame.
  - destruct (decide (k' = k)) as [->|Hne].
    + rewrite lookup_insert_eq in Hp'. injection Hp' as <-.
      destruct Hg as (p & -> & Ha & Hrow). congruence.
    + rewrite lookup_insert_ne in Hp' by done. by apply Hsame.
  - destruct (decide (k' = k)) as [->|Hne].
    + by rewrite lookup_delete_eq in Hp'.
    + rewrite lookup_delete_ne in Hp' by done. by apply Hsame.
Qed.

Lemma post_author_fixed_witness :
  ∃ u, user (sample_submission (AuthUser 2 bob) [("title", "new"); ("text", "post")])
       = AuthUser 2%positive u.
Proof.
  exact (post_author_fixed sample_decl url_create_post
           (sample_submission (AuthUser 2 bob) [("title", "new"); ("text", "post")])
           sample_db 5%positive
           (mkPost "new" "post" None 0 true 2%positive (Some 1%positive)) eq_refl).
Defined.

(** X5.  A stored comment is changed or removed only on a request of its
    author, or in the course of a request that deletes a post. *)
Theorem comment_changed_only_by_author decl route request db k c :
  comments db !! k = Some c →
  comments (serve decl route request db).2 !! k = Some c
  ∨ (∃ u, user request = AuthUser (comment_author c) u)
  ∨ (∃ kp, is_Some (posts db !! kp) ∧ posts (serve decl route request db).2 !! kp = None).
Proof.
  intros Hc.
  destruct (serve_write decl route request db) as (w & -> & Hw).
  destruct Hw as [->|(_ & uid & u & Hu & Hg)]; [by left|].
  destruct w as [|? ?|row|k' row|k'|row|k' row|k']; simpl in *; try by left.
  - destruct Hg as (p & Hp & _). right. right. exists k'.
    split; [by eexists|apply lookup_delete_eq].
  - left. by apply save_row_new_other.
  - destruct (decide (k' = k)) as [->|Hne].
    + destruct Hg as (c' & Hc' & Ha & _). right. left. exists u. congruence.
    + left. by rewrite lookup_insert_ne.
  - destruct (decide (k' = k)) as [->|Hne].
    + destruct Hg as (c' & Hc' & Ha). right. left. exists u. congruence.
    + left. by rewrite lookup_delete_ne.
Qed.

Lemma comment_changed_only_by_author_witness :
  comments (serve sample_decl (url_edit_comment 1 1)
              (sample_submission (AuthUser 1 alice) [("text", "rewritten")])
              sample_db).2 !! 1%positive
  = comments sample_db !! 1%positive.
Proof.
  destruct (comment_changed_only_by_author sample_decl (url_edit_comment 1 1)
              (sample_submission (AuthUser 1 alice) [("text", "rewritten")])
              sample_db 1%positive _ eq_refl) as [Hsame|[[u Hu]|(kp & _ & Hgone)]].
  - rewrite Hsame. reflexivity.
  - vm_compute in Hu. discriminate Hu.
  - reflexivity.
Defined.

(** X6.  Under a deletion rule that only removes comments, the author and
    the post of a comment never change: a comment that is there before
    and after a request keeps both, and a comment that a request creates
    has the requester as its author and an existing post as its post,
    whatever the submitted fields say. *)
Theorem comment_author_and_post_fixed decl route request db k c' :
  on_delete_removes decl →
  comments (serve decl route request db).2 !! k = Some c' →
  match comments db !! k with
  | Some c => comment_author c' = comment_author c ∧ comment_post c' = comment_post c
  | None =>
      (∃ u, user request = AuthUser (comment_author c') u)
      ∧ is_Some (posts db !! comment_post c')
  end.
Proof.
  intros Hrule.
  destruct (serve_write decl route request db) as (w & -> & Hw).
  intros Hc'.
  assert (comments db !! k = Some c' →
    match comments db !! k with
    | Some c => comment_author c' = comment_author c ∧ comment_post c' = comment_post c
    | None =>
        (∃ u, user request = AuthUser (comment_author c') u)
        ∧ is_Some (posts db !! comment_post c')
    end) as Hsame by (by intros ->).
  destruct Hw as [->|(_ & uid & u & Hu & Hg)]; [by apply Hsame|].
  destruct w as [|? ?|row|k' row|k'|row|k' row|k']; simpl in *; try by apply Hsame.
  - apply Hrule in Hc' as [Hc' _]. by apply Hsame.
  - destruct (decide (fresh (dom (comments db)) = k)) as [<-|Hne].
    + rewrite lookup_insert_eq in Hc'. injection Hc' as <-.
      rewrite fresh_key_free. destruct Hg as [Ha Hp]. split; [|done].
      exists u. by rewrite Ha.
    + rewrite lookup_insert_ne in Hc' by done. by apply Hsame.
  - destruct (decide (k' = k)) as [->|Hne].
    + rewrite lookup_insert_eq in Hc'. injection Hc' as <-.
      destruct Hg as (c & -> & Ha & Hrow & Hpost). split; congruence.
    + rewrite lookup_insert_ne in Hc' by done. by apply Hsame.
  - destruct (decide (k' = k)) as [->|Hne].
    + by rewrite lookup_delete_eq in Hc'.
    + rewrite lookup_delete_ne in Hc' by done. by apply Hsame.
Qed.

Lemma comment_author_and_post_fixed_witness :
  (∃ u, user (sample_submission (AuthUser 2 bob)
                [("text", "on behalf of alice"); ("author", "1"); ("post", "4")])
        = AuthUser 2%positive u)
  ∧ is_Some (posts sample_db !! 1%positive).
Proof.
  exact (comment_author_and_post_fixed sample_decl (url_add_comment 1)
           (sample_submission (AuthUser 2 bob)
              [("text", "on behalf of alice"); ("author", "1"); ("post", "4")])
           sample_db 3%positive
           (mkComment "on behalf of alice" 2%positive 1%positive 0)
           sample_on_delete_removes eq_refl).
Defined.

(** X7.  Under a cascading deletion rule and for a requester who is a row
    of the user table, every route keeps the references of the stored
    rows resolved: after the request every post still has its author and
    every comment its author and its post. *)
Theorem references_stay_resolved decl route request db :
  on_delete_removes decl →
  requester_known request db →
  references_resolve db →
  references_resolve (serve decl route request db).2.
Proof.
  intros Hrule Hknown [Hposts Hcomments].
  destruct (serve_write decl route request db) as (w & -> & Hw).
  destruct Hw as [->|(_ & uid & u & Hu & Hg)]; [done|].
  pose proof (Hknown uid u Hu) as Huid.
  destruct w as [|k' row|row|k' row|k'|row|k' row|k']; simpl in *.
  - done.
  - subst k'. split.
    + intros k p Hp. simpl. apply lookup_insert_is_Some'. right. by eapply Hposts.
    + intros k c Hc. simpl. destruct (Hcomments k c Hc) as [Ha Hp].
      split; [|done]. apply lookup_insert_is_Some'. by right.
  - split.
    + intros k p. simpl. rewrite lookup_insert_Some.
      intros [[_ <-]|[_ Hp]]; [by rewrite Hg|by eapply Hposts].
    + intros k c Hc. simpl. destruct (Hcomments k c Hc) as [Ha Hp].
      split; [done|]. apply lookup_insert_is_Some'. by right.
  - destruct Hg as (p0 & Hp0 & Ha0 & Hrow). split.
    + intros k p. simpl. rewrite lookup_insert_Some.
      intros [[_ <-]|[_ Hp]]; [by rewrite Hrow|by eapply Hposts].
    + intros k c Hc. simpl. destruct (Hcomments k c Hc) as [Ha Hp].
      split; [done|]. apply lookup_insert_is_Some'. by right.
  - split.
    + intros k p. simpl. rewrite lookup_delete_Some. intros [_ Hp]. by eapply Hposts.
    + intros k c Hc. simpl in *. apply Hrule in Hc as [Hc Hne].
      destruct (Hcomments k c Hc) as [Ha Hp]. split; [done|].
      by rewrite lookup_delete_ne.
  - destruct Hg as [Ha Hp]. split; [done|].
    intros k c. simpl. rewrite lookup_insert_Some.
    intros [[_ <-]|[_ Hc]]; [by rewrite Ha|by eapply Hcomments].
  - destruct Hg as (c0 & Hc0 & Ha0 & Hrow & Hpost). split; [done|].
    intros k c. simpl. rewrite lookup_insert_Some.
    intros [[_ <-]|[_ Hc]]; [|by eapply Hcomments].
    rewrite Hrow, Hpost. split; [done|]. by apply (Hcomments k' c0).
  - split; [done|].
    intros k c. simpl. rewrite lookup_delete_Some. intros [_ Hc]. by eapply Hcomments.
Qed.

Lemma sample_references_resolve : references_resolve sample_db.
Proof.
  split.
  - apply (bool_decide_unpack
      (map_Forall (λ _ p, is_Some (users sample_db !! author p)) (posts sample_db))).
    vm_compute. exact I.
  - apply (bool_decide_unpack
      (map_Forall (λ _ c, is_Some (users sample_db !! comment_author c)
                          ∧ is_Some (posts sample_db !! comment_post c))
         (comments sample_db))).
    vm_compute. exact I.
Defined.

Lemma references_stay_resolved_witness :
  references_resolve
    (serve sample_decl (url_delete_post 1) (sample_request POST (AuthUser 3 staff))
       sample_db).2.
Proof.
  apply references_stay_resolved.
  - exact sample_on_delete_removes.
  - intros uid u [= <- <-]. vm_compute. eexists. reflexivity.
  - exact sample_references_resolve.
Defined.

(** ** Accepted submissions *)

(** On a POST, the instance a form saves is built from the submitted
    fields and files as they are. *)
Lemma or_None_default (q : QueryDict) : default [] (or_None q) = q.
Proof. by destruct q. Qed.

Lemma post_form_save decl request instance :
  method request = POST →
  form_save_no_commit (PostForm decl) (post_form request instance)
  = construct_instance (PostForm decl) (body_fields request) (body_files request) instance.
Proof.
  intros Hm. unfold form_save_no_commit, post_form, request_POST, request_FILES. simpl.
  by rewrite !decide_True, !or_None_default.
Qed.

Lemma comment_form_save decl request comment :
  method request = POST →
  form_save_no_commit (CommentForm decl) (comment_form request comment)
  = construct_instance (CommentForm decl) (body_fields request) [] comment.
Proof.
  intros Hm. unfold form_save_no_commit, comment_form, request_POST. simpl.
  by rewrite !decide_True, !or_None_default.
Qed.

(** X8.  A post submission that the form accepts is saved: the stored
    post holds the fields that the form builds from the submitted fields
    and files, with the requester as author; on the create route it is
    stored under a key that was not in use, on the edit route, for the
    author, under the key of the post; no other row of any table changes.
    The handler then redirects to the requester's profile, which fails
    with a server error, the post being saved all the same, when the
    username is empty or holds a slash.  The handler does not look at the
    request method: only a POST can make the form valid. *)
Theorem accepted_post_saved decl request uid u db :
  user request = AuthUser uid u →
  (is_valid (PostForm decl) db (post_form request None) = true →
     method request = POST
     ∧ ∃ k db',
         let built :=
           construct_instance (PostForm decl) (body_fields request) (body_files request)
             None in
         serve decl url_create_post request db
           = (redirect_response (blog_profile (username u)), db')
         ∧ posts db !! k = None
         ∧ posts db' !! k
           = Some (mkPost (title built) (text built) (image built) (pub_date built)
                     (is_published built) uid (category built))
         ∧ (∀ k', k' ≠ k → posts db' !! k' = posts db !! k')
         ∧ users db' = users db ∧ categories db' = categories db
         ∧ comments db' = comments db)
  ∧ (∀ k p, posts db !! k = Some p → uid = author p →
     is_valid (PostForm decl) db (post_form request (Some (k, p))) = true →
     method request = POST
     ∧ ∃ db',
         let built :=
           construct_instance (PostForm decl) (body_fields request) (body_files request)
             (Some (k, p)) in
         serve decl (url_edit_post (Npos k)) request db
           = (redirect_response (blog_profile (username u)), db')
         ∧ posts db' !! k
           = Some (mkPost (title built) (text built) (image built) (pub_date built)
                     (is_published built) (author p) (category built))
         ∧ (∀ k', k' ≠ k → posts db' !! k' = posts db !! k')
         ∧ users db' = users db ∧ categories db' = categories db
         ∧ comments db' = comments db).
Proof.
  intros Huser. split.
  - intros Hvalid.
    assert (method request = POST) as Hm by by eapply post_form_bound_POST, is_valid_bound.
    split; [done|].
    exists (fresh (dom (posts db))). eexists.
    rewrite (create_post_run decl request uid u db Huser).
    rewrite (create_post_form_run decl request uid u db None Huser), Hvalid.
    rewrite (post_form_save decl request None Hm). simpl.
    split; [reflexivity|]. split; [apply fresh_key_free|]. simpl.
    split; [apply lookup_insert_eq|]. split; [|done].
    intros k' Hne. by apply lookup_insert_ne.
  - intros k p Hp Ha Hvalid.
    assert (method request = POST) as Hm by by eapply post_form_bound_POST, is_valid_bound.
    split; [done|]. eexists.
    rewrite (edit_post_run decl request uid u db k p Huser Hp).
    rewrite bool_decide_eq_true_2 by done. simpl.
    rewrite (create_post_form_run decl request uid u db _ Huser), Hvalid.
    rewrite (post_form_save decl request _ Hm). simpl.
    split; [reflexivity|]. simpl. rewrite <- Ha.
    split; [apply lookup_insert_eq|]. split; [|done].
    intros k' Hne. by apply lookup_insert_ne.
Qed.

Lemma accepted_post_saved_witness :
  ∃ db',
    serve sample_decl url_create_post
      (sample_submission (AuthUser 2 (mkUser "a/b" "" "" "" false))
         [("title", "new"); ("text", "post")]) sample_db
    = (HttpResponseServerError, db')
    ∧ posts sample_db !! 5%positive = None
    ∧ posts db' !! 5%positive
      = Some (mkPost "new" "post" None 0 true 2%positive (Some 1%positive)).
Proof.
  destruct (proj1 (accepted_post_saved sample_decl
              (sample_submission (AuthUser 2 (mkUser "a/b" "" "" "" false))
                 [("title", "new"); ("text", "post")])
              2%positive _ sample_db eq_refl) eq_refl)
    as (_ & k & db' & Hserve & _ & _ & _).
  eexists. split; [|split]; [vm_compute; reflexivity|reflexivity|vm_compute; reflexivity].
Defined.

(** X9.  A comment submission that the form accepts on a POST is saved
    and answered by a redirect to the detail route of the post: the
    stored comment holds the fields that the form builds from the
    submitted fields, with the requester as author and the post of the
    URL as post, whatever the submission says; a new comment is stored
    under a key that was not in use, an edited comment, for its author,
    under its own key; no other row of any table changes. *)
Theorem accepted_comment_saved decl request uid u db kp p :
  user request = AuthUser uid u →
  method request = POST →
  posts db !! kp = Some p →
  (is_valid (CommentForm decl) db (comment_form request None) = true →
     ∃ k db',
       let built := construct_instance (CommentForm decl) (body_fields request) [] None in
       serve decl (url_add_comment (Npos kp)) request db
         = (redirect (blog_post_detail (Npos kp)), db')
       ∧ comments db !! k = None
       ∧ comments db' !! k = Some (mkComment (comment_text built) uid kp (created_at built))
       ∧ (∀ k', k' ≠ k → comments db' !! k' = comments db !! k')
       ∧ users db' = users db ∧ categories db' = categories db ∧ posts db' = posts db)
  ∧ (∀ k c, comments db !! k = Some c → comment_post c = kp → uid = comment_author c →
     is_valid (CommentForm decl) db (comment_form request (Some (k, c))) = true →
     ∃ db',
       let built :=
         construct_instance (CommentForm decl) (body_fields request) [] (Some (k, c)) in
       serve decl (url_edit_comment (Npos kp) (Npos k)) request db
         = (redirect (blog_post_detail (Npos kp)), db')
       ∧ comments db' !! k
         = Some (mkComment (comment_text built) (comment_author c) (comment_post c)
                   (created_at built))
       ∧ (∀ k', k' ≠ k → comments db' !! k' = comments db !! k')
       ∧ users db' = users db ∧ categories db' = categories db ∧ posts db' = posts db).
Proof.
  intros Huser Hmethod Hp. split.
  - intros Hvalid.
    exists (fresh (dom (comments db))). eexists.
    rewrite (add_comment_run decl request uid u db kp p Huser Hp).
    rewrite (add_comment_form_run decl request uid u db _ _ Huser).
    rewrite decide_True, Hvalid by done.
    rewrite (comment_form_save decl request None Hmethod). simpl.
    split; [reflexivity|]. split; [apply fresh_key_free|]. simpl.
    split; [apply lookup_insert_eq|]. split; [|done].
    intros k' Hne. by apply lookup_insert_ne.
  - intros k c Hc Hpost Ha Hvalid. eexists.
    rewrite (edit_comment_run decl request uid u db kp p k c Huser Hp Hc).
    rewrite !bool_decide_eq_true_2 by done. simpl.
    rewrite (add_comment_form_run decl request uid u db _ _ Huser).
    rewrite decide_True, Hvalid by done.
    rewrite (comment_form_save decl request _ Hmethod). simpl.
    split; [reflexivity|]. simpl. rewrite <- Ha, Hpost.
    split; [apply lookup_insert_eq|]. split; [|done].
    intros k' Hne. by apply lookup_insert_ne.
Qed.

Lemma accepted_comment_saved_witness :
  ∃ db',
    serve sample_decl (url_edit_comment 1 1)
      (sample_submission (AuthUser 2 bob) [("text", "nicer"); ("post", "4")]) sample_db
    = (redirect (blog_post_detail 1), db')
    ∧ comments db' !! 1%positive = Some (mkComment "nicer" 2 1 110).
Proof.
  destruct (proj2 (accepted_comment_saved sample_decl
              (sample_submission (AuthUser 2 bob) [("text", "nicer"); ("post", "4")])
              2%positive bob sample_db 1%positive _ eq_refl eq_refl eq_refl)
              1%positive _ eq_refl eq_refl eq_refl eq_refl)
    as (db' & Hserve & Hrow & _).
  exists db'. split; [exact Hserve|exact Hrow].
Defined.

(** X10.  A profile submission that the form accepts on a POST replaces
    the requester's own row and no other, and the handler redirects to
    the profile under the username as saved, not the one the requester
    had before; that redirect fails with a server error, the row being
    saved all the same, when the saved username is empty or holds a
    slash. *)
Theorem accepted_profile_saved decl request uid u db :
  user request = AuthUser uid u →
  method request = POST →
  is_valid (ProfileEditForm decl) db (profile_form request (uid, u)) = true →
  ∃ row,
    serve decl url_edit_profile request db
      = (redirect_response (blog_profile (username row)), set_users (insert uid row) db)
    ∧ row = construct_instance (ProfileEditForm decl) (body_fields request) []
              (Some (uid, u)).
Proof.
  intros Huser Hmethod Hvalid. eexists.
  rewrite (edit_profile_run decl request uid u db Huser).
  rewrite decide_True, Hvalid by done. split; [done|].
  unfold form_save_no_commit, profile_form. simpl.
  by rewrite (request_POST_body request Hmethod).
Qed.

Lemma accepted_profile_saved_witness :
  (serve sample_decl url_edit_profile
     (sample_submission (AuthUser 2 bob) [("username", "robert")]) sample_db).1
  = redirect (blog_profile "robert").
Proof.
  destruct (accepted_profile_saved sample_decl
              (sample_submission (AuthUser 2 bob) [("username", "robert")])
              2%positive bob sample_db eq_refl eq_refl eq_refl) as (row & Hserve & ->).
  rewrite Hserve. reflexivity.
Defined.

(** ** Edge cases of the routes *)

(** X11.  The id zero on an edit route is taken for no id: editing post 0
    is creating a post, and editing comment 0 under a post is adding a
    comment to that post, for every request and database. *)
Theorem edit_zero_is_create decl request db :
  serve decl (url_edit_post 0) request db = serve decl url_create_post request db
  ∧ ∀ n, serve decl (url_edit_comment n 0) request db
         = serve decl (url_add_comment n) request db.
Proof. split; [|intros n]; reflexivity. Qed.

(** X12.  A request to a delete route that is not a POST, by a requester
    who may delete, deletes nothing and renders a page for the record:
    the post form of the post on [blog/create.html], the comment on
    [blog/comment.html]. *)
Theorem delete_without_POST_renders decl request uid u db :
  user request = AuthUser uid u →
  method request ≠ POST →
  (∀ k p, posts db !! k = Some p → uid = author p ∨ is_staff u = true →
     serve decl (url_delete_post (Npos k)) request db
       = (render "blog/create.html" (ctx_post_form (mkForm None None (Some (k, p)))), db))
  ∧ (∀ n k c, comments db !! k = Some c → uid = comment_author c →
     serve decl (url_delete_comment n (Npos k)) request db
       = (render "blog/comment.html" (ctx_comment (k, c)), db)).
Proof.
  intros Huser Hmethod. split.
  - intros k p Hp Hallowed. rewrite (delete_post_run decl request uid u db k p Huser Hp).
    rewrite decide_False by done.
    destruct Hallowed as [->| ->]; [by rewrite bool_decide_eq_true_2|].
    by rewrite andb_false_r.
  - intros n k c Hc ->. rewrite (delete_comment_run decl request _ u db n k c Huser Hc).
    by rewrite bool_decide_eq_true_2, decide_False.
Qed.

Lemma delete_without_POST_renders_witness :
  serve sample_decl (url_delete_comment 1 1) (sample_request GET (AuthUser 2 bob)) sample_db
  = (render "blog/comment.html" (ctx_comment (1%positive, mkComment "nice" 2 1 110)),
     sample_db).
Proof.
  refine (proj2 (delete_without_POST_renders sample_decl
            (sample_request GET (AuthUser 2 bob)) 2%positive bob sample_db eq_refl _)
            1%N 1%positive _ eq_refl eq_refl).
  vm_compute. discriminate.
Defined.

(** X13.  The detail page of a post that is published, not dated after
    the time of the request, and in a published category is rendered for
    every requester, the anonymous one included, with exactly the
    comments attached to that post and an empty comment form, and writes
    nothing. *)
Theorem post_detail_public decl request db k p c cat :
  posts db !! k = Some p →
  is_published p = true →
  pub_date p ≤ clock request →
  category p = Some c →
  categories db !! c = Some cat →
  category_is_published cat = true →
  ∃ shown,
    serve decl (url_post_detail (Npos k)) request db
      = (render "blog/detail.html" (ctx_detail (k, p) (mkForm None None None) shown), db)
    ∧ ∀ kc row, (kc, row) ∈ shown ↔ comments db !! kc = Some row ∧ comment_post row = k.
Proof.
  intros Hp Hpub Hdate Hc Hcat Hcpub. eexists.
  rewrite (post_detail_run decl request db k p Hp).
  assert (published_now db (clock request) p = true) as ->.
  { unfold published_now, pub_date__lte, category__is_published.
    by rewrite Hpub, Hc, Hcat, Hcpub, bool_decide_eq_true_2. }
  rewrite andb_false_r. split; [done|].
  intros kc row. rewrite elem_of_objects_filter. by rewrite bool_decide_eq_true.
Qed.

Lemma post_detail_public_witness :
  ∃ shown,
    serve sample_decl (url_post_detail 1) (sample_request GET AnonymousUser) sample_db
      = (render "blog/detail.html"
           (ctx_detail
              (1%positive, mkPost "first" "hello" None 100 true 1%positive (Some 1%positive))
              (mkForm None None None) shown), sample_db)
    ∧ ∀ kc row, (kc, row) ∈ shown
                ↔ comments sample_db !! kc = Some row ∧ comment_post row = 1%positive.
Proof.
  refine (post_detail_public sample_decl (sample_request GET AnonymousUser) sample_db
            1%positive _ 1%positive _ eq_refl eq_refl _ eq_refl eq_refl eq_refl).
  vm_compute. discriminate.
Defined.

(** ** What the listings contain *)

(** A lookup on a column that singles out one row finds it. *)
Lemma get_object_or_404_by_unique {A} (table : DB → gmap positive A) cond db k a :
  table db !! k = Some a →
  cond k a = true →
  (∀ k' a', table db !! k' = Some a' → cond k' a' = true → k' = k) →
  get_object_or_404_by table cond db = (Done (k, a), db).
Proof.
  intros Hk Hcond Hunique. unfold get_object_or_404_by.
  assert (∀ x, x ∈ objects_filter cond (table db) → x = (k, a)) as Hall.
  { intros [k' a'] [Hk' Hc']%elem_of_objects_filter.
    pose proof (Hunique k' a' Hk' Hc') as ->. congruence. }
  assert ((k, a) ∈ objects_filter cond (table db)) as Hin
    by by apply elem_of_objects_filter.
  assert (NoDup (objects_filter cond (table db))) as Hnodup
    by apply NoDup_filter, NoDup_map_to_list.
  destruct (objects_filter cond (table db)) as [|x [|y l]].
  - by apply elem_of_nil in Hin.
  - by rewrite (Hall x) by left.
  - exfalso. apply NoDup_cons in Hnodup as [Hx _]. apply Hx.
    rewrite (Hall x), <- (Hall y); [left|right; left|left].
Qed.

(** A filtered, ordered, annotated query lists each post that satisfies
    the filter once, with the number of its comments. *)
Lemma queryset_exact db cond :
  NoDup (row_pk <$> annotate db (order_by_pub_date_desc (objects_filter cond (posts db))))
  ∧ ∀ row,
      row ∈ annotate db (order_by_pub_date_desc (objects_filter cond (posts db)))
      ↔ posts db !! row_pk row = Some (row_post row)
        ∧ cond (row_pk row) (row_post row) = true
        ∧ comment_count row = Count_comment db (row_pk row).
Proof.
  unfold annotate, order_by_pub_date_desc. split.
  - rewrite <- list_fmap_compose.
    rewrite (merge_sort_Permutation pub_date_desc).
    apply (NoDup_fmap_2_strong _).
    + intros [k1 p1] [k2 p2] [H1 _]%elem_of_objects_filter [H2 _]%elem_of_objects_filter.
      simpl. intros ->. congruence.
    + apply NoDup_filter, NoDup_map_to_list.
  - intros [k p n]. rewrite list_elem_of_fmap. simpl. split.
    + intros ([k' p'] & [= -> -> ->] & Hin). simpl.
      rewrite merge_sort_Permutation in Hin.
      apply elem_of_objects_filter in Hin. tauto.
    + intros (Hp & Hc & ->). exists (k, p). split; [done|].
      rewrite merge_sort_Permutation. by apply elem_of_objects_filter.
Qed.

(** X14.  The queryset of the home feed lists every post that is
    published, not dated after the time of the request and in a published
    category, each exactly once and with the number of comments attached
    to it, and nothing else. *)
Theorem home_feed_exact request db :
  ∃ qs,
    HomePage.get_queryset request db = (Done qs, db)
    ∧ NoDup (row_pk <$> qs)
    ∧ ∀ row,
        row ∈ qs
        ↔ posts db !! row_pk row = Some (row_post row)
          ∧ published_now db (clock request) (row_post row) = true
          ∧ comment_count row = Count_comment db (row_pk row).
Proof.
  eexists. split; [reflexivity|].
  apply (queryset_exact db (λ _ p, published_now db (clock request) p)).
Qed.

(** X15.  For a slug that names one category, published, the queryset of
    the category feed lists every post of that category that is published
    and not dated after the time of the request, each exactly once, and
    nothing else. *)
Theorem category_feed_exact request db s kc cat :
  categories db !! kc = Some cat →
  slug cat = s →
  (∀ k' c', categories db !! k' = Some c' → slug c' = s → k' = kc) →
  category_is_published cat = true →
  ∃ qs,
    CategoryListView.get_queryset request s db = (Done qs, db)
    ∧ NoDup (row_pk <$> qs)
    ∧ ∀ row,
        row ∈ qs
        ↔ posts db !! row_pk row = Some (row_post row)
          ∧ category (row_post row) = Some kc
          ∧ is_published (row_post row) = true
          ∧ pub_date (row_post row) ≤ clock request
          ∧ comment_count row = Count_comment db (row_pk row).
Proof.
  intros Hcat Hslug Hunique Hpub. eexists.
  unfold CategoryListView.get_queryset, CategoryListView.get_category. unfold_view.
  rewrite (get_object_or_404_by_unique categories _ db kc cat Hcat).
  2:{ by apply bool_decide_eq_true_2. }
  2:{ intros k' c' Hc' Hs%bool_decide_eq_true. by eapply Hunique. }
  simpl. rewrite Hpub. simpl. split; [reflexivity|].
  destruct (queryset_exact db
    (λ _ p, bool_decide (category p = Some kc) && is_published p
            && pub_date__lte (clock request) p)) as [Hnodup Hrows].
  split; [done|]. intros row. rewrite Hrows.
  rewrite !andb_true_iff. unfold pub_date__lte. rewrite !bool_decide_eq_true.
  tauto.
Qed.

Lemma category_feed_exact_witness :
  ∃ qs,
    CategoryListView.get_queryset (sample_request GET AnonymousUser) "news" sample_db
      = (Done qs, sample_db)
    ∧ NoDup (row_pk <$> qs)
    ∧ ∀ row,
        row ∈ qs
        ↔ posts sample_db !! row_pk row = Some (row_post row)
          ∧ category (row_post row) = Some 1%positive
          ∧ is_published (row_post row) = true
          ∧ pub_date (row_post row) ≤ 500
          ∧ comment_count row = Count_comment sample_db (row_pk row).
Proof.
  refine (category_feed_exact (sample_request GET AnonymousUser) sample_db "news"
            1%positive _ eq_refl eq_refl _ eq_refl).
  intros k' c' Hc' Hs.
  assert (map_Forall (λ k c, slug c = "news" → k = 1%positive) (categories sample_db))
    as Hall by decide_by_compute.
  exact (Hall k' c' Hc' Hs).
Defined.

(** X16.  A GET or HEAD request for the feed of a category that exists
    but is not published is answered 404, like one for a category that
    does not exist. *)
Theorem unpublished_category_404 decl request db s kc cat :
  method request = GET ∨ method request = HEAD →
  categories db !! kc = Some cat →
  slug cat = s →
  (∀ k' c', categories db !! k' = Some c' → slug c' = s → k' = kc) →
  category_is_published cat = false →
  serve decl (url_category_posts s) request db = (HttpResponseNotFound, db).
Proof.
  intros Hmethod Hcat Hslug Hunique Hpub.
  unfold serve, respond. simpl.
  unfold CategoryListView.as_view, ListView_dispatch, ListView_get,
    CategoryListView.get_queryset, CategoryListView.get_category.
  assert (get_object_or_404_by categories (λ _ c, bool_decide (slug c = s)) db
          = (Done (kc, cat), db)) as Hfound.
  { apply get_object_or_404_by_unique; [done|by apply bool_decide_eq_true_2|].
    intros k' c' Hc' Hs%bool_decide_eq_true. by eapply Hunique. }
  destruct Hmethod as [-> | ->]; unfold_view; rewrite Hfound; simpl; by rewrite Hpub.
Qed.

Lemma unpublished_category_404_witness :
  serve sample_decl (url_category_posts "hidden") (sample_request GET AnonymousUser) sample_db
  = (HttpResponseNotFound, sample_db).
Proof.
  refine (unpublished_category_404 sample_decl (sample_request GET AnonymousUser) sample_db
            "hidden" 2%positive _ (or_introl eq_refl) eq_refl eq_refl _ eq_refl).
  intros k' c' Hc' Hs.
  assert (map_Forall (λ k c, slug c = "hidden" → k = 2%positive) (categories sample_db))
    as Hall by decide_by_compute.
  exact (Hall k' c' Hc' Hs).
Defined.

(** X17.  For a username that names one user, the queryset of the profile
    feed lists every post of that author, each exactly once, whatever its
    publication state, its date and its category, and nothing else. *)
Theorem profile_feed_exact db name ku u :
  users db !! ku = Some u →
  username u = name →
  (∀ k' u', users db !! k' = Some u' → username u' = name → k' = ku) →
  ∃ qs,
    ProfileListView.get_queryset name db = (Done qs, db)
    ∧ NoDup (row_pk <$> qs)
    ∧ ∀ row,
        row ∈ qs
        ↔ posts db !! row_pk row = Some (row_post row)
          ∧ author (row_post row) = ku
          ∧ comment_count row = Count_comment db (row_pk row).
Proof.
  intros Hu Hname Hunique. eexists.
  unfold ProfileListView.get_queryset, ProfileListView.get_profile. unfold_view.
  rewrite (get_object_or_404_by_unique users _ db ku u Hu).
  2:{ by apply bool_decide_eq_true_2. }
  2:{ intros k' u' Hu' Hs%bool_decide_eq_true. by eapply Hunique. }
  simpl. split; [reflexivity|].
  destruct (queryset_exact db (λ _ p, bool_decide (author p = ku))) as [Hnodup Hrows].
  split; [done|]. intros row. rewrite Hrows. by rewrite bool_decide_eq_true.
Qed.

Lemma profile_feed_exact_witness :
  ∃ qs,
    ProfileListView.get_queryset "alice" sample_db = (Done qs, sample_db)
    ∧ NoDup (row_pk <$> qs)
    ∧ ∀ row,
        row ∈ qs
        ↔ posts sample_db !! row_pk row = Some (row_post row)
          ∧ author (row_post row) = 1%positive
          ∧ comment_count row = Count_comment sample_db (row_pk row).
Proof.
  refine (profile_feed_exact sample_db "alice" 1%positive _ eq_refl eq_refl _).
  intros k' u' Hu' Hs.
  assert (map_Forall (λ k u, username u = "alice" → k = 1%positive) (users sample_db))
    as Hall by decide_by_compute.
  exact (Hall k' u' Hu' Hs).
Defined.

(** ** Pages and context of the listings *)

Lemma serve_listing decl l request db :
  serve decl (listing_route l) request db
  = respond (ListView_dispatch
               (ListView_get (listing_template l) (listing_queryset l request)
                  (listing_extra l request) request) request) db.
Proof. by destruct l. Qed.

Lemma readonly_listing_extra l request : readonly (listing_extra l request).
Proof.
  destruct l; simpl;
    unfold HomePage.get_context_data, CategoryListView.get_context_data,
      CategoryListView.get_category, ProfileListView.get_context_data,
      ProfileListView.get_profile; auto 10 with readonly.
Qed.

(** The additions to the context are there whenever the queryset is. *)
Lemma listing_extra_Done l request db qs db' :
  listing_queryset l request db = (Done qs, db') →
  ∃ extra, listing_extra l request db = (Done extra, db).
Proof.
  destruct l as [|s|name]; simpl.
  - intros _. by eexists.
  - unfold CategoryListView.get_queryset, CategoryListView.get_context_data. unfold_view.
    destruct (CategoryListView.get_category s db) as [[cat|e] db1] eqn:Hcat; [|done].
    apply (readonly_Done _ _ _ _ (readonly_get_object_or_404_by _ _)) in Hcat as ->.
    intros _. by eexists.
  - unfold ProfileListView.get_queryset, ProfileListView.get_context_data. unfold_view.
    destruct (ProfileListView.get_profile name db) as [[prof|e] db1] eqn:Hprof; [|done].
    apply (readonly_Done _ _ _ _ (readonly_get_object_or_404_by _ _)) in Hprof as ->.
    intros _. by eexists.
Qed.

(** A listing that renders has run its three steps. *)
Lemma listing_render_inv decl l request db t page extra db' :
  serve decl (listing_route l) request db = (render t (ctx_list page extra), db') →
  t = listing_template l
  ∧ ∃ qs, listing_queryset l request db = (Done qs, db)
          ∧ listing_extra l request db = (Done extra, db).
Proof.
  rewrite serve_listing. unfold respond, ListView_dispatch, ListView_get.
  pose proof (readonly_listing_queryset l request db) as Hq.
  pose proof (readonly_listing_extra l request db) as He.
  destruct (method request); unfold_view; try done.
  all: destruct (listing_queryset l request db) as [[qs|[]] db1]; simpl in *; subst;
    try done.
  all: destruct (paginate_queryset qs PAGE_PAGINATOR (GET_page request) db)
         as [[pg|[]] db2] eqn:Hp; try done.
  all: apply paginate_queryset_Done in Hp as (-> & _).
  all: destruct (listing_extra l request db) as [[x|[]] db3]; simpl in *; subst; try done.
  all: intros [= <- <- <- <-]; split; [done|]; by exists qs.
Qed.

Lemma list_filter_ext_elem {A} (P Q : A → Prop) `{∀ x, Decision (P x)}
    `{∀ x, Decision (Q x)} (l : list A) :
  (∀ x, x ∈ l → P x ↔ Q x) → filter P l = filter Q l.
Proof.
  induction l as [|x l IH]; [done|]. intros Hl.
  rewrite !filter_cons. rewrite IH by (intros y Hy; apply Hl; by right).
  destruct (decide (P x)) as [HP|HP], (decide (Q x)) as [HQ|HQ]; try done.
  - exfalso. apply HQ, Hl; [left|done].
  - exfalso. apply HP, Hl; [left|done].
Qed.

(** X18.  What a listing adds to its page, on the template of its view.
    The home feed adds [total_posts], counted at a second reading of the
    clock: it is the size the queryset of the home feed has at that
    second reading, and so the size of the queryset that is listed,
    over all its pages, whenever no post falls due between the two
    readings.  A category feed adds the category its slug names, which is
    published; a profile feed the user its username names. *)
Theorem listing_context decl l request db t page extra db' :
  serve decl (listing_route l) request db = (render t (ctx_list page extra), db') →
  t = listing_template l
  ∧ match l with
    | home_feed =>
        ∃ qs qs2,
          HomePage.get_queryset request db = (Done qs, db)
          ∧ HomePage.get_queryset (at_second_reading request) db = (Done qs2, db)
          ∧ extra = extra_total_posts (length qs2)
          ∧ ((∀ k p, posts db !! k = Some p →
                pub_date p ≤ clock request ↔ pub_date p ≤ clock_again request) →
             extra = extra_total_posts (length qs))
    | category_feed s =>
        ∃ k c, extra = extra_category (k, c) ∧ categories db !! k = Some c
               ∧ slug c = s ∧ category_is_published c = true
    | profile_feed name =>
        ∃ k u, extra = extra_profile (k, u) ∧ users db !! k = Some u ∧ username u = name
    end.
Proof.
  intros (-> & qs & Hqs & Hextra)%listing_render_inv. split; [done|].
  destruct l as [|s|name]; simpl in *.
  - exists qs. eexists. split; [done|]. split; [reflexivity|].
    unfold HomePage.get_queryset, HomePage.get_context_data in *. unfold_view.
    injection Hqs as <-. injection Hextra as <-.
    unfold annotate, order_by_pub_date_desc.
    rewrite !length_fmap, !(merge_sort_Permutation pub_date_desc). split; [done|].
    intros Hdue. f_equal. f_equal. unfold objects_filter.
    apply list_filter_ext_elem. intros [k p] Hkp%elem_of_map_to_list. simpl.
    unfold published_now, pub_date__lte.
    rewrite !andb_true_iff, !bool_decide_eq_true. specialize (Hdue k p Hkp). tauto.
  - unfold CategoryListView.get_queryset, CategoryListView.get_context_data,
      CategoryListView.get_category in *. unfold_view.
    destruct (get_object_or_404_by categories _ db) as [[[k c]|e] db1] eqn:Hcat; [|done].
    apply get_object_or_404_by_Done in Hcat as (-> & Hlookup & Hs%bool_decide_eq_true).
    simpl in *. injection Hextra as <-.
    destruct (category_is_published c) eqn:Hpub; [|done]. by exists k, c.
  - unfold ProfileListView.get_context_data, ProfileListView.get_profile in *. unfold_view.
    destruct (get_object_or_404_by users _ db) as [[[k u]|e] db1] eqn:Hprof; [|done].
    apply get_object_or_404_by_Done in Hprof as (-> & Hlookup & Hs%bool_decide_eq_true).
    simpl in *. injection Hextra as <-. by exists k, u.
Qed.

Lemma listing_context_witness :
  ∃ qs qs2,
    HomePage.get_queryset (mkRequest GET AnonymousUser "/" [] [] None 60 500) sample_db
      = (Done qs, sample_db)
    ∧ HomePage.get_queryset
        (at_second_reading (mkRequest GET AnonymousUser "/" [] [] None 60 500)) sample_db
      = (Done qs2, sample_db)
    ∧ length qs = 0%nat
    ∧ extra_total_posts 1 = extra_total_posts (length qs2).
Proof.
  destruct (listing_context sample_decl home_feed
              (mkRequest GET AnonymousUser "/" [] [] None 60 500) sample_db
              "blog/index.html" [] (extra_total_posts 1) sample_db)
    as (_ & qs & qs2 & Hqs & Hqs2 & Hextra & _).
  { vm_compute. reflexivity. }
  exists qs, qs2. split; [exact Hqs|]. split; [exact Hqs2|]. split; [|exact Hextra].
  vm_compute in Hqs. by injection Hqs as <-.
Defined.

(** The page of a number in range. *)
Lemma paginate_queryset_in_range {A} (qs : list A) (n : Z) db :
  1 ≤ n ≤ Z.of_nat (num_pages (length qs) PAGE_PAGINATOR) →
  paginate_queryset qs PAGE_PAGINATOR (Some (page_int n)) db
  = (Done (take 10 (drop (10 * (Z.to_nat n - 1)) qs)), db).
Proof.
  intros Hn. unfold paginate_queryset. unfold_view.
  rewrite !bool_decide_eq_false_2 by lia.
  rewrite (Nat.mul_comm (Z.to_nat n - 1) PAGE_PAGINATOR).
  change PAGE_PAGINATOR with 10%nat.
  case_bool_decide as Hlast; f_equal; f_equal.
  - rewrite !take_ge; [done|rewrite length_drop; lia..].
  - f_equal. lia.
Qed.

Lemma paginate_queryset_out_of_range {A} (qs : list A) (n : Z) db :
  ¬ (1 ≤ n ≤ Z.of_nat (num_pages (length qs) PAGE_PAGINATOR)) →
  paginate_queryset qs PAGE_PAGINATOR (Some (page_int n)) db = (Raise Http404, db).
Proof.
  intros Hn. unfold paginate_queryset. unfold_view.
  case_bool_decide; [done|]. by rewrite bool_decide_eq_true_2 by lia.
Qed.

(** X19.  A GET or HEAD request for page [n] of a listing whose queryset
    is there shows rows [10 (n - 1)] to [10 n - 1] of the queryset when
    [n] lies between one and the number of pages, and is answered 404
    otherwise. *)
Theorem listing_page_by_number decl l request db qs n :
  method request = GET ∨ method request = HEAD →
  listing_queryset l request db = (Done qs, db) →
  GET_page request = Some (page_int n) →
  if bool_decide (1 ≤ n ≤ Z.of_nat (num_pages (length qs) PAGE_PAGINATOR))
  then ∃ extra,
         serve decl (listing_route l) request db
         = (render (listing_template l)
              (ctx_list (take 10 (drop (10 * (Z.to_nat n - 1)) qs)) extra), db)
  else serve decl (listing_route l) request db = (HttpResponseNotFound, db).
Proof.
  intros Hmethod Hqs Hpage.
  destruct (listing_extra_Done l request db qs db Hqs) as [extra Hextra].
  rewrite serve_listing. unfold respond, ListView_dispatch, ListView_get.
  rewrite Hpage.
  case_bool_decide as Hn.
  - exists extra.
    destruct Hmethod as [-> | ->]; unfold mbind, mret, View_bind, View_ret;
      rewrite Hqs, (paginate_queryset_in_range qs n db Hn), Hextra; done.
  - destruct Hmethod as [-> | ->]; unfold mbind, mret, View_bind, View_ret;
      rewrite Hqs, (paginate_queryset_out_of_range qs n db Hn); done.
Qed.

Lemma listing_page_by_number_witness :
  serve sample_decl (listing_route home_feed)
    (mkRequest GET AnonymousUser "/" [] [] (Some (page_int 2)) 500 500) sample_db
  = (HttpResponseNotFound, sample_db).
Proof.
  exact (listing_page_by_number sample_decl home_feed
           (mkRequest GET AnonymousUser "/" [] [] (Some (page_int 2)) 500 500) sample_db
           [sample_first_row] 2 (or_introl eq_refl) eq_refl eq_refl).
Defined.

(** X20.  No row of a listing is out of reach: the row at position [i] of
    the queryset is shown at position [i mod 10] of page [i / 10 + 1],
    which is a page in range. *)
Theorem every_row_on_a_page decl l request db qs i row :
  method request = GET ∨ method request = HEAD →
  listing_queryset l request db = (Done qs, db) →
  qs !! i = Some row →
  GET_page request = Some (page_int (Z.of_nat (i `div` 10 + 1))) →
  ∃ page extra,
    serve decl (listing_route l) request db
    = (render (listing_template l) (ctx_list page extra), db)
    ∧ page !! (i `mod` 10)%nat = Some row.
Proof.
  intros Hmethod Hqs Hrow Hpage.
  destruct (listing_extra_Done l request db qs db Hqs) as [extra Hextra].
  pose proof (lookup_lt_Some _ _ _ Hrow) as Hlen.
  assert (1 ≤ Z.of_nat (i `div` 10 + 1)
            ≤ Z.of_nat (num_pages (length qs) PAGE_PAGINATOR)) as Hn.
  { split; [lia|]. apply inj_le. unfold num_pages, PAGE_PAGINATOR.
    replace (1 `max` length qs + 10 - 1)%nat with (length qs + 9)%nat by lia.
    pose proof (Nat.div_mod_eq i 10). pose proof (Nat.mod_upper_bound i 10).
    assert (i `div` 10 * 10 + 10 ≤ length qs + 9)%nat as Hle by lia.
    apply (Nat.Div0.div_le_mono _ _ 10) in Hle.
    rewrite Nat.div_add_l in Hle by lia.
    change (10 `div` 10)%nat with 1%nat in Hle. exact Hle. }
  eexists _, extra. split.
  - rewrite serve_listing. unfold respond, ListView_dispatch, ListView_get.
    rewrite Hpage.
    destruct Hmethod as [-> | ->]; unfold mbind, mret, View_bind, View_ret;
      rewrite Hqs, (paginate_queryset_in_range qs _ db Hn), Hextra; done.
  - pose proof (Nat.mod_upper_bound i 10).
    rewrite lookup_take_lt by lia. rewrite lookup_drop. rewrite <- Hrow. f_equal.
    pose proof (Nat.div_mod_eq i 10). lia.
Qed.

Lemma every_row_on_a_page_witness :
  ∃ page extra,
    serve sample_decl (listing_route (profile_feed "alice"))
      (mkRequest GET AnonymousUser "/" [] [] (Some (page_int 1)) 500 500) sample_db
    = (render "blog/profile.html" (ctx_list page extra), sample_db)
    ∧ page !! 1%nat = Some sample_draft_row.
Proof.
  exact (every_row_on_a_page sample_decl (profile_feed "alice")
           (mkRequest GET AnonymousUser "/" [] [] (Some (page_int 1)) 500 500) sample_db
           [sample_first_row; sample_draft_row] 1 sample_draft_row
           (or_introl eq_refl) eq_refl eq_refl eq_refl).
Defined.

(** ** Failures *)

(** A lookup on a column fails with a 404, or because two rows match. *)
Lemma get_object_or_404_by_Raise {A} (table : DB → gmap positive A) cond db e db' :
  get_object_or_404_by table cond db = (Raise e, db') →
  e = Http404
  ∨ ∃ k1 k2 a1 a2,
      k1 ≠ k2 ∧ table db !! k1 = Some a1 ∧ table db !! k2 = Some a2
      ∧ cond k1 a1 = true ∧ cond k2 a2 = true.
Proof.
  unfold get_object_or_404_by.
  pose proof (NoDup_filter (λ row : pk * A, cond row.1 row.2 = true) _
                (NoDup_map_to_list (table db))) as Hnodup.
  fold (objects_filter cond (table db)) in Hnodup.
  destruct (objects_filter cond (table db)) as [|[k1 a1] [|[k2 a2] l]] eqn:Hl;
    intros [= <- <-]; [by left|]. right.
  assert ((k1, a1) ∈ objects_filter cond (table db)) as H1 by (rewrite Hl; left).
  assert ((k2, a2) ∈ objects_filter cond (table db)) as H2
    by (rewrite Hl; right; left).
  apply elem_of_objects_filter in H1 as [H1 Hc1].
  apply elem_of_objects_filter in H2 as [H2 Hc2].
  exists k1, k2, a1, a2. split; [|done].
  intros ->. apply NoDup_cons in Hnodup as [Hnotin _]. apply Hnotin.
  replace a1 with a2 by congruence. left.
Qed.

(** The paginator fails with a 404 only. *)
Lemma paginate_queryset_Raise {A} (qs : list A) n page db e db' :
  paginate_queryset qs n page db = (Raise e, db') → e = Http404.
Proof.
  unfold paginate_queryset.
  destruct page as [[z| |]|]; unfold_view;
    repeat (destruct (bool_decide _); simpl); by intros [= <- <-].
Qed.

Lemma keys_fit_lookup_None {A} (table : gmap positive A) n :
  (∀ k a, table !! k = Some a → (Npos k < key_limit)%N) →
  (key_limit ≤ n)%N →
  lookup_pk table n = None.
Proof.
  intros Hfit Hn. destruct (lookup_pk table n) as [[k a]|] eqn:E; [|done].
  apply lookup_pk_inv in E as [-> E]. apply Hfit in E. simpl in *. lia.
Qed.

(** X21.  An id of [2^63] or more in the URL makes the lookup of the
    record fail with a server error instead of a 404, and nothing is
    written: the post id on the detail route for any requester and, for
    an authenticated requester, on the post edit, post delete, comment
    add and comment edit routes; the comment id on the comment delete
    route, and on the comment edit route under an existing post. *)
Theorem oversized_id_server_error decl request db n :
  keys_fit db →
  (key_limit ≤ n)%N →
  serve decl (url_post_detail n) request db = (HttpResponseServerError, db)
  ∧ (is_authenticated (user request) = true →
       serve decl (url_edit_post n) request db = (HttpResponseServerError, db)
       ∧ serve decl (url_delete_post n) request db = (HttpResponseServerError, db)
       ∧ serve decl (url_add_comment n) request db = (HttpResponseServerError, db)
       ∧ (∀ c, serve decl (url_edit_comment n c) request db = (HttpResponseServerError, db))
       ∧ (∀ m, serve decl (url_delete_comment m n) request db
                 = (HttpResponseServerError, db))
       ∧ (∀ k p, posts db !! k = Some p →
            serve decl (url_edit_comment (Npos k) n) request db
              = (HttpResponseServerError, db))).
Proof.
  intros [Hposts Hcomments] Hn.
  pose proof (keys_fit_lookup_None (posts db) n Hposts Hn) as Hp.
  pose proof (keys_fit_lookup_None (comments db) n Hcomments Hn) as Hc.
  assert (int_truthy n = true) as Htruthy.
  { unfold int_truthy. apply negb_true_iff, N.eqb_neq. unfold key_limit in Hn.
    intros ->. by vm_compute in Hn. }
  split.
  - unfold serve, respond. simpl. unfold post_detail. unfold_view.
    by rewrite (get_object_or_404_pk_overflow posts n db Hp Hn).
  - intros Hauth. repeat split.
    + unfold serve, respond. simpl. unfold create_post, login_required.
      rewrite Hauth, Htruthy. unfold_view.
      by rewrite (get_object_or_404_pk_overflow posts n db Hp Hn).
    + unfold serve, respond. simpl. unfold delete_post, login_required.
      rewrite Hauth. unfold_view.
      by rewrite (get_object_or_404_pk_overflow posts n db Hp Hn).
    + unfold serve, respond. simpl. unfold add_comment, login_required.
      rewrite Hauth. unfold_view.
      by rewrite (get_object_or_404_pk_overflow posts n db Hp Hn).
    + intros c. unfold serve, respond. simpl. unfold add_comment, login_required.
      rewrite Hauth. unfold_view.
      by rewrite (get_object_or_404_pk_overflow posts n db Hp Hn).
    + intros m. unfold serve, respond. simpl. unfold delete_comment, login_required.
      rewrite Hauth. unfold_view.
      by rewrite (get_object_or_404_pk_overflow comments n db Hc Hn).
    + intros k p Hk. unfold serve, respond. simpl. unfold add_comment, login_required.
      rewrite Hauth, Htruthy. unfold_view.
      rewrite (get_object_or_404_pk_Some posts k p db Hk). simpl.
      by rewrite (get_object_or_404_pk_overflow comments n db Hc Hn).
Qed.

Lemma sample_keys_fit : keys_fit sample_db.
Proof.
  split.
  - apply (bool_decide_unpack
      (map_Forall (λ k _, (Npos k < key_limit)%N) (posts sample_db))).
    vm_compute. exact I.
  - apply (bool_decide_unpack
      (map_Forall (λ k _, (Npos k < key_limit)%N) (comments sample_db))).
    vm_compute. exact I.
Defined.

Lemma oversized_id_server_error_witness :
  serve sample_decl (url_post_detail 9223372036854775808) (sample_request GET AnonymousUser)
    sample_db
  = (HttpResponseServerError, sample_db).
Proof.
  refine (proj1 (oversized_id_server_error sample_decl (sample_request GET AnonymousUser)
                   sample_db 9223372036854775808 sample_keys_fit _)).
  vm_compute. discriminate.
Defined.

(** X22.  One request writes at most one row: of any two rows of the post
    table one is as it was, likewise for the user table, and likewise for
    the comment table unless the request deleted a post; and a request
    that changes one of the three tables leaves the other two alone,
    again unless it deleted a post. *)
Theorem at_most_one_row_written decl route request db :
  let db' := (serve decl route request db).2 in
  (∀ k1 k2, k1 ≠ k2 →
     posts db' !! k1 = posts db !! k1 ∨ posts db' !! k2 = posts db !! k2)
  ∧ (∀ k1 k2, k1 ≠ k2 →
       users db' !! k1 = users db !! k1 ∨ users db' !! k2 = users db !! k2)
  ∧ ((∃ kp, is_Some (posts db !! kp) ∧ posts db' !! kp = None)
     ∨ (∀ k1 k2, k1 ≠ k2 →
          comments db' !! k1 = comments db !! k1 ∨ comments db' !! k2 = comments db !! k2)
       ∧ (users db' = users db ∧ posts db' = posts db
          ∨ users db' = users db ∧ comments db' = comments db
          ∨ posts db' = posts db ∧ comments db' = comments db)).
Proof.
  assert (∀ {A} (t : gmap positive A) k row k1 k2, k1 ≠ k2 →
    <[k := row]> t !! k1 = t !! k1 ∨ <[k := row]> t !! k2 = t !! k2) as Hinsert.
  { intros A t k row k1 k2 Hne. destruct (decide (k = k1)) as [->|].
    - right. by rewrite lookup_insert_ne.
    - left. by rewrite lookup_insert_ne. }
  assert (∀ {A} (t : gmap positive A) k k1 k2, k1 ≠ k2 →
    delete k t !! k1 = t !! k1 ∨ delete k t !! k2 = t !! k2) as Hdelete.
  { intros A t k k1 k2 Hne. destruct (decide (k = k1)) as [->|].
    - right. by rewrite lookup_delete_ne.
    - left. by rewrite lookup_delete_ne. }
  destruct (serve_write decl route request db) as (w & -> & Hw). simpl.
  destruct Hw as [->|(_ & uid & u & Hu & Hg)]; simpl.
  { split; [by left|]. split; [by left|]. right. split; [by left|]. by left. }
  destruct w as [|k' row|row|k' row|k'|row|k' row|k']; simpl in *.
  - split; [by left|]. split; [by left|]. right. split; [by left|]. by left.
  - split; [by left|]. split; [by apply Hinsert|]. right. split; [by left|]. by right; right.
  - split; [by apply Hinsert|]. split; [by left|]. right. split; [by left|].
    by right; left.
  - split; [by apply Hinsert|]. split; [by left|]. right. split; [by left|].
    by right; left.
  - split; [by apply Hdelete|]. split; [by left|]. left.
    destruct Hg as (p & Hp & _). exists k'. split; [by eexists|apply lookup_delete_eq].
  - split; [by left|]. split; [by left|]. right. split; [by apply Hinsert|]. by left.
  - split; [by left|]. split; [by left|]. right. split; [by apply Hinsert|]. by left.
  - split; [by left|]. split; [by left|]. right. split; [by apply Hdelete|]. by left.
Qed.

(** X23.  Without a page parameter a GET or HEAD request shows the first
    ten rows of the queryset of the listing; a listing with no row
    renders an empty page and not a 404. *)
Theorem listing_default_page decl l request db qs :
  method request = GET ∨ method request = HEAD →
  listing_queryset l request db = (Done qs, db) →
  GET_page request = None →
  ∃ extra,
    serve decl (listing_route l) request db
    = (render (listing_template l) (ctx_list (take 10 qs) extra), db).
Proof.
  intros Hmethod Hqs Hpage.
  destruct (listing_extra_Done l request db qs db Hqs) as [extra Hextra].
  exists extra. rewrite serve_listing. unfold respond, ListView_dispatch, ListView_get.
  rewrite Hpage.
  destruct Hmethod as [-> | ->]; unfold mbind, mret, View_bind, View_ret;
    rewrite Hqs, paginate_queryset_first, Hextra by (unfold PAGE_PAGINATOR; lia); done.
Qed.

Lemma listing_default_page_witness :
  ∃ extra,
    serve sample_decl (listing_route home_feed) (sample_request GET AnonymousUser)
      (mkDB ∅ ∅ ∅ ∅)
    = (render "blog/index.html" (ctx_list [] extra), mkDB ∅ ∅ ∅ ∅).
Proof.
  exact (listing_default_page sample_decl home_feed (sample_request GET AnonymousUser)
           (mkDB ∅ ∅ ∅ ∅) [] (or_introl eq_refl) eq_refl eq_refl).
Defined.
